(** * Configuration resolution of the metrics viewer ([commands/common.go])

    A shallow embedding of [parseCommonConfig] and of the library
    functions it calls, with the properties the specification states
    about the resolved configuration. *)

From Stdlib Require Import ZArith Lia Bool Ascii String List.
From stdpp Require Import base decidable option list strings gmap.

Local Open Scope string_scope.
Local Open Scope Z_scope.

(** ** Go machine integers *)

Module Int64.

Definition modulus : Z := 2 ^ 64.
Definition min_int : Z := - 2 ^ 63.
Definition max_int : Z := 2 ^ 63 - 1.

(** Two's complement wrap-around of an [int64] result. *)
Definition wrap (z : Z) : Z := (z + 2 ^ 63) mod modulus - 2 ^ 63.

(** [a * b] on [int64]. *)
Definition mul (a b : Z) : Z := wrap (a * b).

Definition in_range (z : Z) : Prop := min_int <= z <= max_int.

End Int64.

(** ** [strconv.ParseInt(s, 10, 64)] *)

Module strconv.

(** The two sentinel errors of [strconv.NumError]. *)
Inductive NumError := ErrSyntax | ErrRange.

Definition maxUint64 : Z := 2 ^ 64 - 1.

(** The digit a byte stands for in [ParseUint]: ['0'..'9'], and the
    letters, which base 10 then rejects since their value is >= 10. *)
Definition digit_of (c : ascii) : option Z :=
  let n := Z.of_N (N_of_ascii c) in
  if (48 <=? n) && (n <=? 57) then Some (n - 48)
  else
    let l := Z.lor n 32 in (* lower(c) = c | ('x' - 'X') *)
    if (97 <=? l) && (l <=? 122) then Some (l - 97 + 10)
    else None.

(** The loop of [ParseUint] for base 10 and bit size 64, with [n] the
    accumulator.  A byte that is no digit of the base ends the loop with
    a syntax error, an overflow ends it with a range error. *)
Fixpoint ParseUint_loop (s : string) (n : Z) : Z + NumError :=
  match s with
  | EmptyString => inl n
  | String c rest =>
      match digit_of c with
      | None => inr ErrSyntax
      | Some d =>
          if 10 <=? d then inr ErrSyntax
          else if maxUint64 / 10 + 1 <=? n then inr ErrRange
          else
            let n1 := n * 10 + d in
            if maxUint64 <? n1 then inr ErrRange
            else ParseUint_loop rest n1
      end
  end.

Definition ParseUint (s : string) : Z + NumError :=
  match s with
  | EmptyString => inr ErrSyntax
  | _ => ParseUint_loop s 0
  end.

(** [ParseInt(s, 10, 64)]: an optional sign, then [ParseUint], then the
    range check of a signed 64-bit result. *)
Definition ParseInt (s : string) : Z + NumError :=
  match s with
  | EmptyString => inr ErrSyntax
  | String c rest =>
      let neg := Ascii.eqb c "-" in
      let s' := if Ascii.eqb c "+" then rest
                else if neg then rest else s in
      match ParseUint s' with
      | inr ErrSyntax => inr ErrSyntax
      | inr ErrRange => inr ErrRange
      | inl un =>
          let cutoff := 2 ^ 63 in
          if negb neg && (cutoff <=? un) then inr ErrRange
          else if neg && (cutoff <? un) then inr ErrRange
          else inl (if neg then - un else un)
      end
  end.

End strconv.

(** ** [strings.Split] with a one-byte separator *)

Module strings.

(** [Split(s, sep)] for a separator of one byte: the pieces of [s]
    between the occurrences of [sep]; the empty string gives one empty
    piece. *)
Fixpoint Split (s : string) (sep : ascii) : list string :=
  match s with
  | EmptyString => [EmptyString]
  | String c rest =>
      if Ascii.eqb c sep then EmptyString :: Split rest sep
      else
        match Split rest sep with
        | piece :: pieces => String c piece :: pieces
        | [] => [String c EmptyString]
        end
  end.

(** [Join(elems, sep)]. *)
Fixpoint Join (elems : list string) (sep : ascii) : string :=
  match elems with
  | [] => EmptyString
  | [e] => e
  | e :: rest => e ++ String sep (Join rest sep)
  end.

(** [Contains(s, sep)] for a one-byte [sep]. *)
Fixpoint ContainsByte (s : string) (sep : ascii) : bool :=
  match s with
  | EmptyString => false
  | String c rest => Ascii.eqb c sep || ContainsByte rest sep
  end.

End strings.

(** ** [unicode/utf8]: the runes of a Go string *)

Module utf8.

Definition rune := Z.
Definition RuneError : rune := 65533.

Definition byte_val (c : ascii) : Z := Z.of_N (N_of_ascii c).

Definition between (lo x hi : Z) : bool := (lo <=? x) && (x <=? hi).

(** A continuation byte, [0x80..0xBF]. *)
Definition cont (x : Z) : bool := between 128 x 191.

Definition low6 (x : Z) : Z := Z.land x 63.

(** [DecodeRuneInString]: the first rune of [s] and what follows it; an
    invalid or truncated encoding yields [RuneError] of width one. *)
Definition DecodeRuneInString (s : string) : option (rune * string) :=
  match s with
  | EmptyString => None
  | String c0 r0 =>
      let b0 := byte_val c0 in
      let invalid := Some (RuneError, r0) in
      if b0 <? 128 then Some (b0, r0)
      else if (b0 <? 194) || (244 <? b0) then invalid
      else if b0 <? 224 then
        match r0 with
        | String c1 r1 =>
            let b1 := byte_val c1 in
            if cont b1
            then Some (Z.lor (Z.shiftl (Z.land b0 31) 6) (low6 b1), r1)
            else invalid
        | _ => invalid
        end
      else if b0 <? 240 then
        match r0 with
        | String c1 (String c2 r2) =>
            let b1 := byte_val c1 in
            let b2 := byte_val c2 in
            let lo := if b0 =? 224 then 160 else 128 in
            let hi := if b0 =? 237 then 159 else 191 in
            if between lo b1 hi && cont b2
            then Some (Z.lor (Z.shiftl (Z.land b0 15) 12)
                        (Z.lor (Z.shiftl (low6 b1) 6) (low6 b2)), r2)
            else invalid
        | _ => invalid
        end
      else
        match r0 with
        | String c1 (String c2 (String c3 r3)) =>
            let b1 := byte_val c1 in
            let b2 := byte_val c2 in
            let b3 := byte_val c3 in
            let lo := if b0 =? 240 then 144 else 128 in
            let hi := if b0 =? 244 then 143 else 191 in
            if between lo b1 hi && cont b2 && cont b3
            then Some (Z.lor (Z.shiftl (Z.land b0 7) 18)
                        (Z.lor (Z.shiftl (low6 b1) 12)
                           (Z.lor (Z.shiftl (low6 b2) 6) (low6 b3))), r3)
            else invalid
        | _ => invalid
        end
  end.

(** The runes of [s], as a [for _, r := range s] loop sees them.  Each
    step consumes at least one byte, so [String.length s] steps are
    enough. *)
Fixpoint runes_fuel (fuel : nat) (s : string) : list rune :=
  match fuel with
  | O => []
  | S fuel' =>
      match DecodeRuneInString s with
      | None => []
      | Some (r, rest) => r :: runes_fuel fuel' rest
      end
  end.

Definition runes (s : string) : list rune := runes_fuel (String.length s) s.

End utf8.

(** ** [regexp]: compiled expressions and matching *)

Module regexp.

Import utf8.

(** The parsed form of an expression ([regexp/syntax]).  The leaves are
    kept semantic: [OpCharClass p] is one rune satisfying [p] (a literal
    rune, a class, [.]), [OpEmptyWidth a] an assertion on a position of
    the text that consumes nothing (the empty match, [^], [$], [\b]). *)
Inductive syntax :=
| OpNoMatch
| OpEmptyWidth (a : list rune -> nat -> bool)
| OpCharClass (p : rune -> bool)
| OpConcat (r1 r2 : syntax)
| OpAlternate (r1 r2 : syntax)
| OpStar (r : syntax)
| OpPlus (r : syntax)
| OpQuest (r : syntax)
| OpCapture (r : syntax).

Definition OpEmptyMatch : syntax := OpEmptyWidth (fun _ _ => true).
Definition OpAnyChar : syntax := OpCharClass (fun _ => true).
(** [.] without the [s] flag: any rune but a line feed. *)
Definition OpAnyCharNotNL : syntax := OpCharClass (fun r => negb (r =? 10)).
Definition OpLiteral (r : rune) : syntax := OpCharClass (Z.eqb r).

(** [*Regexp]: the source text and its parsed form. *)
Record Regexp := mkRegexp { expr : string; prog : syntax }.

(** Zero or more consecutive spans accepted by [m] fill [i, j).  An
    iteration that matters consumes at least one rune, so [j - i]
    iterations are enough. *)
Fixpoint star_span (m : nat -> nat -> bool) (fuel i j : nat) : bool :=
  (i =? j)%nat ||
  match fuel with
  | O => false
  | S fuel' =>
      existsb (fun k => m i k && star_span m fuel' k j) (seq (S i) (j - i))
  end.

(** [span re text i j]: [re] matches exactly the runes [i, j) of
    [text]. *)
Fixpoint span (re : syntax) (text : list rune) (i j : nat) : bool :=
  match re with
  | OpNoMatch => false
  | OpEmptyWidth a => (i =? j)%nat && a text i
  | OpCharClass p =>
      (j =? S i)%nat &&
      match text !! i with Some r => p r | None => false end
  | OpConcat r1 r2 =>
      existsb (fun k => span r1 text i k && span r2 text k j)
        (seq i (S (j - i)))
  | OpAlternate r1 r2 => span r1 text i j || span r2 text i j
  | OpStar r => star_span (span r text) (j - i) i j
  | OpPlus r =>
      existsb (fun k => span r text i k
                        && star_span (span r text) (j - k) k j)
        (seq i (S (j - i)))
  | OpQuest r => (i =? j)%nat || span r text i j
  | OpCapture r => span r text i j
  end.

(** [re.MatchString(s)]: [s] contains some match of [re]. *)
Definition MatchString (re : Regexp) (s : string) : bool :=
  let text := runes s in
  let n := length text in
  existsb (fun i => existsb (fun j => span (prog re) text i j)
                      (seq i (S (n - i))))
    (seq 0 (S n)).

(** [re.String()]: the source text of the expression. *)
Definition String_ (re : Regexp) : string := expr re.

(** [regexp.MustCompile(".*")], the one constant pattern of the program:
    a star over [.]. *)
Definition MustCompile_dot_star : Regexp :=
  mkRegexp ".*" (OpStar OpAnyCharNotNL).

End regexp.

(** ** [time] *)

Module time.

(** [time.Duration]: an [int64] count of nanoseconds. *)
Definition Duration := Z.
Definition Nanosecond : Duration := 1.
Definition Second : Duration := 1000000000.

End time.

(** ** Errors *)

(** An [error] value: one built by [fmt.Errorf] from a format and its
    arguments (a [%w] argument is the wrapped cause), a [strconv] error, or
    an error of another library, kept by its text. *)
Inductive error :=
| Errorf (format : string) (args : list fmtarg)
| NumError (e : strconv.NumError)
| LibError (text : string)
with fmtarg :=
| ArgString (s : string)
| ArgInt (z : Z)
| ArgErr (e : error).

(** ** [os]: environment, files and the handles of the process *)

Module os.

(** What the program sees of its operating system: the environment, for
    each path whether it can be opened ([None]) or the error opening it
    gives, and the file descriptors the process holds open. *)
Record State := mkState {
  environ : gmap string string;
  open_error : string -> option string;
  open_fds : gset nat;
}.

(** [os.Getenv(key)]: the value, empty when the variable is unset. *)
Definition Getenv (w : State) (key : string) : string :=
  default EmptyString (environ w !! key).

(** [os.Open(name)]: a new descriptor, or the error. *)
Definition Open (name : string) (w : State) : (nat + error) * State :=
  match open_error w name with
  | Some text => (inr (LibError text), w)
  | None =>
      let fd := fresh (open_fds w) in
      (inl fd, mkState (environ w) (open_error w) ({[ fd ]} ∪ open_fds w))
  end.

(** [f.Close()]; the program drops its error. *)
Definition Close (fd : nat) (w : State) : State :=
  mkState (environ w) (open_error w) (open_fds w ∖ {[ fd ]}).

End os.

(** ** [components]: the flags of the host plugin framework *)

Module components.

Record StringFlag := mkStringFlag {
  Name : string;
  Description : string;
  DefaultValue : string;
}.

Record BoolFlag := mkBoolFlag {
  BName : string;
  BDescription : string;
  BDefaultValue : bool;
}.

(** [components.Context]: the values of the flags by name. *)
Record Context := mkContext {
  stringFlags : gmap string string;
  boolFlags : gmap string bool;
}.

(** A lookup in a Go map yields the zero value for a missing key. *)
Definition GetStringFlagValue (c : Context) (flagName : string) : string :=
  default EmptyString (stringFlags c !! flagName).

Definition GetBoolFlagValue (c : Context) (flagName : string) : bool :=
  default false (boolFlags c !! flagName).

End components.

(** ** [provider.StringSet] *)

Module provider.

(** Modelled from the spec: the type [provider.StringSet] and its method
    [Add] are declared in package [provider], outside this file.  The
    spec calls the ignore-label configuration a set of label names; it
    is a finite set of strings, and [Add] puts each of its arguments
    into the set. *)
Definition StringSet := gset string.

Definition Add (s : StringSet) (items : list string) : StringSet :=
  foldl (fun acc item => {[ item ]} ∪ acc) s items.

End provider.

(** ** The flags of the commands *)

Import components.

Definition FileFlag : StringFlag :=
  mkStringFlag "file" "log file with the open metrics format" EmptyString.

Definition UrlFlag : StringFlag :=
  mkStringFlag "url" "url endpoint to use to get metrics" EmptyString.

Definition UserFlag : StringFlag :=
  mkStringFlag "user" "username for url requiring authentication" EmptyString.

Definition PasswordFlag : StringFlag :=
  mkStringFlag "password" "password for url requiring authentication" EmptyString.

Definition ArtifactoryFlag : BoolFlag :=
  mkBoolFlag "artifactory" "call Artifactory to get the metrics" false.

Definition ServerFlag : StringFlag :=
  mkStringFlag "server"
    "Artifactory server ID to call when --artifactory is given (uses current by default)"
    EmptyString.

Definition IntervalFlag : StringFlag :=
  mkStringFlag "interval" "scraping interval in seconds" "5".

Definition FilterFlag : StringFlag :=
  mkStringFlag "filter" "regular expression to use for filtering the metrics" EmptyString.

Definition AggregateIgnoreLabelsFlag : StringFlag :=
  mkStringFlag "aggregate-ignore-labels"
    "comma delimited list of labels to ignore when aggregating metrics. Use 'ALL' or 'NONE' to ignore all or none of the labels."
    "start,end,status".

(** The test that a Go string is not the empty string. *)
Definition nonempty (s : string) : bool := negb (String.eqb s EmptyString).

(** ** The resolved configuration and [parseCommonConfig] *)

Section Resolution.

(** What the program takes from other packages: the server details and
    the metrics fetchers of [provider], the lookup of a server
    configuration, and the parser of regular expressions.  [GetConfig]
    reads the configuration of the machine: it is a function of the
    server id here, which holds within one state of the system. *)
Variable ServerDetails : Type.
Variable UrlMetricsFetcher : Type.
Variable GetConfig : string -> bool -> ServerDetails + error.
Variable NewArtifactoryMetricsFetcher :
  ServerDetails -> UrlMetricsFetcher + error.
Variable NewUrlMetricsFetcher : string -> string -> string -> UrlMetricsFetcher.
Variable syntax_Parse : string -> regexp.syntax + error.

(** [regexp.Compile(expr)]: parse, and keep the source text. *)
Definition Compile (expr : string) : regexp.Regexp + error :=
  match syntax_Parse expr with
  | inl prog => inl (regexp.mkRegexp expr prog)
  | inr err => inr err
  end.

(** The fetcher is an interface value and the filter a pointer: both
    can be nil, [None] here. *)
Record commonConfiguration := mkConf {
  file : string;
  urlMetricsFetcher : option UrlMetricsFetcher;
  interval : time.Duration;
  filter : option regexp.Regexp;
  aggregateIgnoreLabels : provider.StringSet;
}.

Definition File (c : commonConfiguration) : string := file c.

Definition Interval (c : commonConfiguration) : time.Duration := interval c.

Definition Filter (c : commonConfiguration) : option regexp.Regexp :=
  filter c.

Definition AggregateIgnoreLabels (c : commonConfiguration)
  : provider.StringSet := aggregateIgnoreLabels c.

(** [String()], by its arguments to [fmt.Sprintf]; calling
    [c.filter.String()] on a nil filter panics: [None]. *)
Definition String_ (c : commonConfiguration)
  : option (string * option UrlMetricsFetcher * time.Duration * string) :=
  match filter c with
  | None => None
  | Some re =>
      Some (file c, urlMetricsFetcher c, interval c, regexp.String_ re)
  end.

(** What [parseCommonConfig] returns: the pointer and the error. *)
Definition result : Type := option commonConfiguration * option error.

Definition parseCommonConfig (c : Context) (w : os.State)
  : result * os.State :=
  let file := GetStringFlagValue c "file" in
  let url := GetStringFlagValue c "url" in
  let callArtifactory := GetBoolFlagValue c "artifactory" in
  let countInputFlags := 0 in
  let countInputFlags :=
    if nonempty file then countInputFlags + 1 else countInputFlags in
  let countInputFlags :=
    if nonempty url then countInputFlags + 1 else countInputFlags in
  let countInputFlags :=
    if callArtifactory then countInputFlags + 1 else countInputFlags in
  if (countInputFlags =? 0)
     && String.eqb (os.Getenv w "MOCK_METRICS_DATA") EmptyString
  then
    ((None, Some (Errorf "one flag is required: --file | --url | --artifactory" [])), w)
  else if 1 <? countInputFlags then
    ((None, Some (Errorf "only one flag is required: --file | --url | --artifactory" [])), w)
  else
    let opened :=
      if nonempty file then
        match os.Open file w with
        | (inr err, w1) => (Some err, w1)
        | (inl f, w1) => (None, os.Close f w1)
        end
      else (None, w) in
    match opened with
    | (Some err, w1) =>
        ((None, Some (Errorf "could not open file %s: %w"
                        [ArgString file; ArgErr err])), w1)
    | (None, w1) =>
        let fetcher :=
          if callArtifactory then
            let serverId := GetStringFlagValue c "server" in
            match GetConfig serverId false with
            | inr err =>
                let msg :=
                  if String.eqb serverId EmptyString
                  then "could not load configuration for current Artifactory server"
                  else "could not load configuration for Artifactory server "
                       ++ serverId in
                inr (Errorf "%s; cause: %w" [ArgString msg; ArgErr err])
            | inl rtDetails =>
                match NewArtifactoryMetricsFetcher rtDetails with
                | inr err =>
                    inr (Errorf "could not initiate metrics fetcher from Artifactory; cause: %w"
                           [ArgErr err])
                | inl f => inl (Some f)
                end
            end
          else inl None in
        match fetcher with
        | inr err => ((None, Some err), w1)
        | inl fetcher =>
            let fetcher :=
              if nonempty url then
                let username := GetStringFlagValue c "user" in
                let password := GetStringFlagValue c "password" in
                Some (NewUrlMetricsFetcher url username password)
              else fetcher in
            let flagValue := GetStringFlagValue c "interval" in
            match strconv.ParseInt flagValue with
            | inr err =>
                ((None, Some (Errorf "failed to parse interval value: %s; cause: %w"
                                [ArgString flagValue; ArgErr (NumError err)])), w1)
            | inl intValue =>
                if intValue <=? 0 then
                  ((None, Some (Errorf "interval value must be positive; got: %d"
                                  [ArgInt intValue])), w1)
                else
                  let interval := Int64.mul intValue time.Second in
                  let filter := Some regexp.MustCompile_dot_star in
                  let flagValue := GetStringFlagValue c "filter" in
                  let compiled :=
                    if nonempty flagValue then
                      match Compile flagValue with
                      | inr err => inr err
                      | inl re => inl (Some re)
                      end
                    else inl filter in
                  match compiled with
                  | inr err =>
                      ((None, Some (Errorf "invalid filter expression; cause: %w"
                                      [ArgErr err])), w1)
                  | inl filter =>
                      let flagValue :=
                        GetStringFlagValue c "aggregate-ignore-labels" in
                      let aggregateIgnoreLabels : provider.StringSet := ∅ in
                      let aggregateIgnoreLabels :=
                        if nonempty flagValue then
                          provider.Add aggregateIgnoreLabels
                            (strings.Split flagValue ",")
                        else aggregateIgnoreLabels in
                      ((Some (mkConf file fetcher interval filter
                                aggregateIgnoreLabels), None), w1)
                  end
            end
        end
    end.


(** *** The steps of [parseCommonConfig], named

    The definitions below name the stretches of the function body, so
    that the properties can be proved step by step;
    [parseCommonConfig_steps] shows that the function is their
    composition. *)

(** How many of the three sources the flags select. *)
Definition countInputFlags (c : Context) : Z :=
  (if nonempty (GetStringFlagValue c "file") then 1 else 0)
  + (if nonempty (GetStringFlagValue c "url") then 1 else 0)
  + (if GetBoolFlagValue c "artifactory" then 1 else 0).

(** The file is opened, and closed at once, when one is given. *)
Definition openFile (file : string) (w : os.State)
  : option error * os.State :=
  if nonempty file then
    match os.Open file w with
    | (inr err, w1) => (Some err, w1)
    | (inl f, w1) => (None, os.Close f w1)
    end
  else (None, w).

(** The fetcher that calls Artifactory, when asked for. *)
Definition artifactoryFetcher (c : Context)
  : option UrlMetricsFetcher + error :=
  if GetBoolFlagValue c "artifactory" then
    let serverId := GetStringFlagValue c "server" in
    match GetConfig serverId false with
    | inr err =>
        let msg :=
          if String.eqb serverId EmptyString
          then "could not load configuration for current Artifactory server"
          else "could not load configuration for Artifactory server "
               ++ serverId in
        inr (Errorf "%s; cause: %w" [ArgString msg; ArgErr err])
    | inl rtDetails =>
        match NewArtifactoryMetricsFetcher rtDetails with
        | inr err =>
            inr (Errorf "could not initiate metrics fetcher from Artifactory; cause: %w"
                   [ArgErr err])
        | inl f => inl (Some f)
        end
    end
  else inl None.

(** The fetcher for a URL replaces it when a URL is given. *)
Definition urlFetcher (c : Context) (fetcher : option UrlMetricsFetcher)
  : option UrlMetricsFetcher :=
  if nonempty (GetStringFlagValue c "url") then
    Some (NewUrlMetricsFetcher (GetStringFlagValue c "url")
            (GetStringFlagValue c "user") (GetStringFlagValue c "password"))
  else fetcher.

(** The filter: the match-all default, or the compiled flag. *)
Definition compileFilter (flagValue : string)
  : option regexp.Regexp + error :=
  if nonempty flagValue then
    match Compile flagValue with
    | inr err => inr err
    | inl re => inl (Some re)
    end
  else inl (Some regexp.MustCompile_dot_star).

(** The labels to ignore: the pieces of the flag, when it is not
    empty. *)
Definition ignoreLabels (flagValue : string) : provider.StringSet :=
  if nonempty flagValue
  then provider.Add ∅ (strings.Split flagValue ",")
  else ∅.

(** *** The errors of [parseCommonConfig] *)

Definition errMissingSource : error :=
  Errorf "one flag is required: --file | --url | --artifactory" [].

Definition errConflictingSources : error :=
  Errorf "only one flag is required: --file | --url | --artifactory" [].

Definition errInvalidFilter (cause : error) : error :=
  Errorf "invalid filter expression; cause: %w" [ArgErr cause].

(** *** Outcomes *)

(** The call returned a configuration and a nil error. *)
Definition succeeds (r : result) : Prop :=
  exists conf, r = (Some conf, None).

(** The call returned a nil configuration and an error. *)
Definition fails (r : result) : Prop :=
  exists err, r = (None, Some err).

(** The interval flag is no strictly positive base-10 integer. *)
Definition badInterval (flagValue : string) : Prop :=
  match strconv.ParseInt flagValue with
  | inl n => n <= 0
  | inr _ => True
  end.

(** The filter flag is given and does not compile. *)
Definition badFilter (flagValue : string) : Prop :=
  flagValue <> EmptyString /\ exists err, Compile flagValue = inr err.

(** The inputs the program refuses for their flags alone: a conflicting
    source selection, a missing one while the mock-data variable of the
    environment is empty, an interval that is not positive, a filter
    that does not compile. *)
Inductive invalidInput (c : Context) (w : os.State) : Prop :=
| ConflictingSources : 2 <= countInputFlags c -> invalidInput c w
| MissingSource :
    countInputFlags c = 0 ->
    os.Getenv w "MOCK_METRICS_DATA" = EmptyString -> invalidInput c w
| NonPositiveInterval :
    badInterval (GetStringFlagValue c "interval") -> invalidInput c w
| InvalidFilter :
    badFilter (GetStringFlagValue c "filter") -> invalidInput c w.

(** A configuration with another filter. *)
Definition withFilter (conf : commonConfiguration) (re : regexp.Regexp)
  : commonConfiguration :=
  mkConf (file conf) (urlMetricsFetcher conf) (interval conf) (Some re)
    (aggregateIgnoreLabels conf).

End Resolution.

Arguments file {UrlMetricsFetcher} _.
Arguments urlMetricsFetcher {UrlMetricsFetcher} _.
Arguments interval {UrlMetricsFetcher} _.
Arguments filter {UrlMetricsFetcher} _.
Arguments aggregateIgnoreLabels {UrlMetricsFetcher} _.
Arguments File {UrlMetricsFetcher} _.
Arguments Interval {UrlMetricsFetcher} _.
Arguments Filter {UrlMetricsFetcher} _.
Arguments AggregateIgnoreLabels {UrlMetricsFetcher} _.
Arguments String_ {UrlMetricsFetcher} _.
Arguments succeeds {UrlMetricsFetcher} _.
Arguments fails {UrlMetricsFetcher} _.
Arguments withFilter {UrlMetricsFetcher} _ _.

(** A context with one string flag set to another value. *)
Definition setStringFlag (c : Context) (flagName value : string) : Context :=
  mkContext (<[flagName := value]> (stringFlags c)) (boolFlags c).

(** ** Sample collaborators and inputs

    Concrete stand-ins for the other packages, and the inputs on which
    the statements below are exercised. *)

Module Sample.

Inductive fetcher :=
| UrlFetcher (url username password : string)
| ArtifactoryFetcher (serverId : string).

(** Every server is configured but the one called [unknown]. *)
Definition GetConfig (serverId : string) (_ : bool) : string + error :=
  if String.eqb serverId "unknown"
  then inr (LibError "Server ID 'unknown' does not exist.")
  else inl serverId.

Definition NewArtifactoryMetricsFetcher (d : string) : fetcher + error :=
  inl (ArtifactoryFetcher d).

(** The parses of the expressions the examples use. *)
Definition Parse (expr : string) : regexp.syntax + error :=
  if String.eqb expr ".*" then inl (regexp.OpStar regexp.OpAnyCharNotNL)
  else if String.eqb expr "^http_" then
    inl (regexp.OpConcat
           (regexp.OpEmptyWidth (fun _ i => (i =? 0)%nat))
           (fold_right
              (fun ch re =>
                 regexp.OpConcat (regexp.OpLiteral (utf8.byte_val ch)) re)
              regexp.OpEmptyMatch (list_ascii_of_string "http_")))
  else if String.eqb expr "(" then
    inr (LibError "error parsing regexp: missing closing ): `(`")
  else inr (LibError "error parsing regexp: not among the examples").

Definition parseCommonConfig :=
  parseCommonConfig string fetcher GetConfig NewArtifactoryMetricsFetcher
    UrlFetcher Parse.

(** An empty environment; every path opens but [missing.log]. *)
Definition plain : os.State :=
  os.mkState ∅
    (fun name =>
       if String.eqb name "missing.log"
       then Some "open missing.log: no such file or directory" else None)
    ∅.

(** The same with the mock-data variable set. *)
Definition mocked : os.State :=
  os.mkState {[ "MOCK_METRICS_DATA" := "true" ]} (os.open_error plain) ∅.

(** The flags at their defaults: no source is selected. *)
Definition defaults : Context :=
  mkContext
    {[ "interval" := DefaultValue IntervalFlag;
       "aggregate-ignore-labels" := DefaultValue AggregateIgnoreLabelsFlag ]}
    {[ "artifactory" := BDefaultValue ArtifactoryFlag ]}.

Definition fromFile : Context := setStringFlag defaults "file" "metrics.log".

Definition fromUrl : Context :=
  setStringFlag defaults "url" "http://localhost:8081/metrics".

Definition fromFileAndUrl : Context :=
  setStringFlag fromFile "url" "http://localhost:8081/metrics".

Definition fromMissingFile : Context :=
  setStringFlag defaults "file" "missing.log".

(** Two sources at once. *)
Definition fromUrlAndArtifactory : Context :=
  mkContext (stringFlags fromUrl) {[ "artifactory" := true ]}.

(** Artifactory, by a server that is not configured. *)
Definition fromUnknownServer : Context :=
  mkContext (<["server" := "unknown"]> (stringFlags defaults))
    {[ "artifactory" := true ]}.

(** A scraping interval of ten seconds, no source. *)
Definition everyTenSeconds : Context :=
  setStringFlag defaults "interval" "10".

(** Intervals beyond what a duration of 64 bits holds. *)
Definition everyLongWhile : Context :=
  setStringFlag fromFile "interval" "9223372037".

Definition everyTwoPow55 : Context :=
  setStringFlag fromUrl "interval" "36028797018963968".

(** Intervals that are refused. *)
Definition everyZero : Context := setStringFlag fromFile "interval" "0".

(** Filters. *)
Definition filterHttp : Context := setStringFlag fromFile "filter" "^http_".

Definition filterBroken : Context := setStringFlag fromFile "filter" "(".

(** A filter that compiles, beside an interval that is refused. *)
Definition filterHttpEveryZero : Context :=
  setStringFlag everyZero "filter" "^http_".

(** Labels to ignore. *)
Definition ignoreHostPod : Context :=
  setStringFlag fromFile "aggregate-ignore-labels" "host,pod".

(** The configurations some of these inputs resolve to. *)
Definition confFromFile : commonConfiguration fetcher :=
  mkConf fetcher "metrics.log" None 5000000000
    (Some regexp.MustCompile_dot_star) {[ "start"; "end"; "status" ]}.

Definition confIgnoreHostPod : commonConfiguration fetcher :=
  mkConf fetcher "metrics.log" None 5000000000
    (Some regexp.MustCompile_dot_star) {[ "host"; "pod" ]}.

(** A URL with credentials, and Artifactory by the server [prod]. *)
Definition fromUrlWithCredentials : Context :=
  setStringFlag (setStringFlag fromUrl "user" "admin") "password" "secret".

Definition fromArtifactory : Context :=
  mkContext (<["server" := "prod"]> (stringFlags defaults))
    {[ "artifactory" := true ]}.

(** Artifactory by the current server, none being configured, and with a
    fetcher that cannot be built. *)
Definition fromCurrentServer : Context :=
  mkContext (stringFlags defaults) {[ "artifactory" := true ]}.

Definition GetConfigNone (serverId : string) (_ : bool) : string + error :=
  inr (LibError "no server is configured").

Definition NewArtifactoryMetricsFetcherRefused (d : string)
  : fetcher + error :=
  inr (LibError "artifactory url is missing").

(** Both the interval and the filter refused. *)
Definition everyZeroFilterBroken : Context :=
  setStringFlag everyZero "filter" "(".

Definition everyPlusSeven : Context := setStringFlag fromFile "interval" "+7".

(** A trailing comma in the labels to ignore. *)
Definition ignoreTrailingComma : Context :=
  setStringFlag fromFile "aggregate-ignore-labels" "host,".

Definition confEveryTenSeconds : commonConfiguration fetcher :=
  mkConf fetcher EmptyString None 10000000000
    (Some regexp.MustCompile_dot_star) {[ "start"; "end"; "status" ]}.

Definition confEveryTwoPow55 : commonConfiguration fetcher :=
  mkConf fetcher EmptyString
    (Some (UrlFetcher "http://localhost:8081/metrics" EmptyString EmptyString))
    0 (Some regexp.MustCompile_dot_star) {[ "start"; "end"; "status" ]}.

Definition confFromUrlWithCredentials : commonConfiguration fetcher :=
  mkConf fetcher EmptyString
    (Some (UrlFetcher "http://localhost:8081/metrics" "admin" "secret"))
    5000000000 (Some regexp.MustCompile_dot_star)
    {[ "start"; "end"; "status" ]}.

Definition confFromArtifactory : commonConfiguration fetcher :=
  mkConf fetcher EmptyString (Some (ArtifactoryFetcher "prod"))
    5000000000 (Some regexp.MustCompile_dot_star)
    {[ "start"; "end"; "status" ]}.

Definition confEveryPlusSeven : commonConfiguration fetcher :=
  mkConf fetcher "metrics.log" None 7000000000
    (Some regexp.MustCompile_dot_star) {[ "start"; "end"; "status" ]}.

Definition confIgnoreTrailingComma : commonConfiguration fetcher :=
  mkConf fetcher "metrics.log" None 5000000000
    (Some regexp.MustCompile_dot_star) {[ "host"; EmptyString ]}.

End Sample.

(** ** The rest of the file: the list of the flags, the accessors *)

(** [components.Flag]: a flag of either kind. *)
Inductive Flag :=
| StringFlagOf (f : StringFlag)
| BoolFlagOf (f : BoolFlag).

Definition GetName (f : Flag) : string :=
  match f with
  | StringFlagOf f => Name f
  | BoolFlagOf f => BName f
  end.

Definition getCommonFlags : list Flag :=
  [ StringFlagOf FileFlag;
    StringFlagOf UrlFlag;
    StringFlagOf UserFlag;
    StringFlagOf PasswordFlag;
    BoolFlagOf ArtifactoryFlag;
    StringFlagOf ServerFlag;
    StringFlagOf IntervalFlag;
    StringFlagOf FilterFlag;
    StringFlagOf AggregateIgnoreLabelsFlag ].

(** The method [UrlMetricsFetcher()] of a configuration. *)
Definition UrlMetricsFetcher_ {F : Type} (c : commonConfiguration F)
  : option F := urlMetricsFetcher c.

(** Two contexts give a flag the same value, read by its kind. *)
Definition sameFlag (c c' : Context) (f : Flag) : Prop :=
  match f with
  | StringFlagOf f =>
      GetStringFlagValue c (Name f) = GetStringFlagValue c' (Name f)
  | BoolFlagOf f =>
      GetBoolFlagValue c (BName f) = GetBoolFlagValue c' (BName f)
  end.

(** The formats of the errors [parseCommonConfig] builds. *)
Definition errorFormats : list string :=
  [ "one flag is required: --file | --url | --artifactory";
    "only one flag is required: --file | --url | --artifactory";
    "could not open file %s: %w";
    "%s; cause: %w";
    "could not initiate metrics fetcher from Artifactory; cause: %w";
    "failed to parse interval value: %s; cause: %w";
    "interval value must be positive; got: %d";
    "invalid filter expression; cause: %w" ].

(** *** Decimal notation *)

Definition isDigit (c : ascii) : bool :=
  let n := Z.of_N (N_of_ascii c) in (48 <=? n) && (n <=? 57).

Fixpoint allDigits (s : string) : bool :=
  match s with
  | EmptyString => true
  | String c rest => isDigit c && allDigits rest
  end.

(** The number a string of digits denotes after the digits read so far
    gave [acc]. *)
Fixpoint decimalFrom (acc : Z) (s : string) : Z :=
  match s with
  | EmptyString => acc
  | String c rest => decimalFrom (acc * 10 + (Z.of_N (N_of_ascii c) - 48)) rest
  end.

Definition decimalValue (s : string) : Z := decimalFrom 0 s.

(** An optional plus sign and then digits, one at least. *)
Definition positiveDecimal (s : string) (digits : string) : Prop :=
  (s = digits \/ s = String "+" digits) /\
  digits <> EmptyString /\ allDigits digits = true.

(** * Properties *)

(** ** Library facts *)

Lemma nonempty_true (s : string) : nonempty s = true <-> s <> EmptyString.
Proof.
  unfold nonempty. destruct (String.eqb_spec s EmptyString); simpl; split;
    congruence.
Qed.

Lemma nonempty_false (s : string) : nonempty s = false <-> s = EmptyString.
Proof.
  unfold nonempty. destruct (String.eqb_spec s EmptyString); simpl; split;
    congruence.
Qed.

(** A product that fits in 64 bits is not changed by the wrap-around. *)
Lemma Int64_mul_exact (a b : Z) :
  Int64.in_range (a * b) -> Int64.mul a b = a * b.
Proof.
  unfold Int64.in_range, Int64.min_int, Int64.max_int, Int64.mul, Int64.wrap,
    Int64.modulus.
  intros H. rewrite Z.mod_small; lia.
Qed.

(** Joining the pieces of a split gives the string back. *)
Lemma Split_nonnil (s : string) (sep : ascii) : strings.Split s sep <> [].
Proof.
  destruct s as [|c rest]; simpl; [discriminate|].
  destruct (Ascii.eqb c sep); [discriminate|].
  destruct (strings.Split rest sep); discriminate.
Qed.

Lemma Join_cons (e e' : string) (l : list string) (sep : ascii) :
  strings.Join (e :: e' :: l) sep
  = (e ++ String sep (strings.Join (e' :: l) sep))%string.
Proof. reflexivity. Qed.

Lemma Join_Split (s : string) (sep : ascii) :
  strings.Join (strings.Split s sep) sep = s.
Proof.
  induction s as [|c rest IH]; [reflexivity|].
  pose proof (Split_nonnil rest sep) as Hnil.
  cbn [strings.Split]. destruct (Ascii.eqb_spec c sep) as [->|Hne].
  - destruct (strings.Split rest sep) as [|p ps]; [congruence|].
    rewrite Join_cons. rewrite IH. reflexivity.
  - destruct (strings.Split rest sep) as [|p ps]; [congruence|].
    destruct ps as [|q qs].
    + cbn [strings.Join] in *. now rewrite IH.
    + rewrite Join_cons in IH |- *. rewrite <- IH. reflexivity.
Qed.

(** No piece of a split holds the separator. *)
Lemma Split_pieces (s : string) (sep : ascii) :
  Forall (fun piece => strings.ContainsByte piece sep = false)
    (strings.Split s sep).
Proof.
  induction s as [|c rest IH]; simpl.
  - repeat constructor.
  - destruct (Ascii.eqb c sep) eqn:Hc.
    + constructor; [reflexivity | exact IH].
    + destruct (strings.Split rest sep) as [|p ps].
      * repeat constructor. simpl. now rewrite Hc.
      * inversion IH; subst. constructor; [|assumption].
        simpl. rewrite Hc. assumption.
Qed.

(** [Add] on the empty set gives the set of the items. *)
Lemma Add_elem_of (s : provider.StringSet) (items : list string) (x : string) :
  x ∈ provider.Add s items <-> x ∈ s \/ x ∈ items.
Proof.
  unfold provider.Add. revert s.
  induction items as [|i items IH]; intros s; simpl.
  - rewrite elem_of_nil. tauto.
  - rewrite IH, elem_of_union, elem_of_singleton, elem_of_cons. tauto.
Qed.

Lemma Add_empty (items : list string) :
  provider.Add ∅ items = list_to_set items.
Proof.
  apply set_eq. intros x.
  rewrite Add_elem_of, elem_of_list_to_set, elem_of_empty. tauto.
Qed.

(** A star matches the empty span. *)
Lemma star_span_empty (m : nat -> nat -> bool) (fuel i : nat) :
  regexp.star_span m fuel i i = true.
Proof. destruct fuel; simpl; now rewrite Nat.eqb_refl. Qed.

(** An expression that is a star is found in every string: at its start
    already, as the empty match. *)
Lemma MatchString_star (e : string) (r : regexp.syntax) (s : string) :
  regexp.MatchString (regexp.mkRegexp e (regexp.OpStar r)) s = true.
Proof.
  unfold regexp.MatchString. simpl regexp.prog.
  apply existsb_exists. exists 0%nat. split.
  - apply in_seq. lia.
  - apply existsb_exists. exists 0%nat. split.
    + apply in_seq. lia.
    + exact (star_span_empty _ (0 - 0) 0).
Qed.

(** Reading a flag of a context in which one was set. *)
Lemma GetStringFlagValue_set (c : Context) (k v k' : string) :
  GetStringFlagValue (setStringFlag c k v) k'
  = if String.eqb k k' then v else GetStringFlagValue c k'.
Proof.
  unfold GetStringFlagValue, setStringFlag. simpl.
  destruct (String.eqb_spec k k') as [->|Hne].
  - now rewrite lookup_insert_eq.
  - now rewrite lookup_insert_ne.
Qed.

Lemma GetBoolFlagValue_set (c : Context) (k v k' : string) :
  GetBoolFlagValue (setStringFlag c k v) k' = GetBoolFlagValue c k'.
Proof. reflexivity. Qed.

(** Opening a file and closing it leaves the process as it was. *)
Lemma Open_Close (name : string) (w w1 : os.State) (fd : nat) :
  os.Open name w = (inl fd, w1) -> os.Close fd w1 = w.
Proof.
  unfold os.Open, os.Close. destruct (os.open_error w name); [discriminate|].
  intros H. inversion H; subst; clear H. destruct w as [env oe fds]. simpl.
  f_equal. apply set_eq. intros x.
  rewrite elem_of_difference, elem_of_union, elem_of_singleton.
  split; [tauto|]. intros Hx. split; [tauto|].
  intros ->. exact (is_fresh fds Hx).
Qed.

Lemma Open_fails (name : string) (w w1 : os.State) (err : error) :
  os.Open name w = (inr err, w1) ->
  w1 = w /\ exists text, os.open_error w name = Some text /\ err = LibError text.
Proof.
  unfold os.Open. destruct (os.open_error w name) as [text|];
    [|discriminate].
  intros H. inversion H; subst. eauto.
Qed.

(** ** The structure of [parseCommonConfig] *)

Section Properties.

Variable ServerDetails : Type.
Variable UrlMetricsFetcher : Type.
Variable GetConfig : string -> bool -> ServerDetails + error.
Variable NewArtifactoryMetricsFetcher :
  ServerDetails -> UrlMetricsFetcher + error.
Variable NewUrlMetricsFetcher : string -> string -> string -> UrlMetricsFetcher.
Variable syntax_Parse : string -> regexp.syntax + error.

Local Abbreviation parse :=
  (parseCommonConfig ServerDetails UrlMetricsFetcher GetConfig
     NewArtifactoryMetricsFetcher NewUrlMetricsFetcher syntax_Parse).
Local Abbreviation fetcherOf :=
  (artifactoryFetcher ServerDetails UrlMetricsFetcher GetConfig
     NewArtifactoryMetricsFetcher).
Local Abbreviation filterOf := (compileFilter syntax_Parse).
Local Abbreviation urlOf := (urlFetcher UrlMetricsFetcher NewUrlMetricsFetcher).

(** The function is the composition of its steps. *)
Lemma parseCommonConfig_steps (c : Context) (w : os.State) :
  parse c w =
  if (countInputFlags c =? 0)
     && String.eqb (os.Getenv w "MOCK_METRICS_DATA") EmptyString
  then (None, Some errMissingSource, w)
  else if 1 <? countInputFlags c
  then (None, Some errConflictingSources, w)
  else
    match openFile (GetStringFlagValue c "file") w with
    | (Some err, w1) =>
        (None, Some (Errorf "could not open file %s: %w"
                       [ArgString (GetStringFlagValue c "file"); ArgErr err]),
         w1)
    | (None, w1) =>
        match fetcherOf c with
        | inr err => (None, Some err, w1)
        | inl fetcher =>
            match strconv.ParseInt (GetStringFlagValue c "interval") with
            | inr err =>
                (None, Some (Errorf "failed to parse interval value: %s; cause: %w"
                               [ArgString (GetStringFlagValue c "interval");
                                ArgErr (NumError err)]), w1)
            | inl intValue =>
                if intValue <=? 0 then
                  (None, Some (Errorf "interval value must be positive; got: %d"
                                 [ArgInt intValue]), w1)
                else
                  match filterOf (GetStringFlagValue c "filter") with
                  | inr err => (None, Some (errInvalidFilter err), w1)
                  | inl re =>
                      (Some (mkConf UrlMetricsFetcher
                               (GetStringFlagValue c "file")
                               (urlOf c fetcher)
                               (Int64.mul intValue time.Second)
                               re
                               (ignoreLabels
                                  (GetStringFlagValue c "aggregate-ignore-labels"))),
                       None, w1)
                  end
            end
        end
    end.
Proof.
  unfold parseCommonConfig, countInputFlags, openFile, artifactoryFetcher,
    compileFilter, urlFetcher, ignoreLabels, errMissingSource,
    errConflictingSources, errInvalidFilter.
  destruct (nonempty (GetStringFlagValue c "file"));
    destruct (nonempty (GetStringFlagValue c "url"));
    destruct (GetBoolFlagValue c "artifactory"); reflexivity.
Qed.

Lemma countInputFlags_range (c : Context) : 0 <= countInputFlags c <= 3.
Proof.
  unfold countInputFlags.
  destruct (nonempty (GetStringFlagValue c "file"));
    destruct (nonempty (GetStringFlagValue c "url"));
    destruct (GetBoolFlagValue c "artifactory"); lia.
Qed.

(** The file step leaves the process as it found it. *)
Lemma openFile_state (name : string) (w : os.State) :
  snd (openFile name w) = w.
Proof.
  unfold openFile. destruct (nonempty name); [|reflexivity].
  destruct (os.Open name w) as [[fd|err] w1] eqn:Hopen; simpl.
  - eapply Open_Close; eassumption.
  - now apply Open_fails in Hopen.
Qed.

(** The file step fails exactly when a file is given that cannot be
    opened. *)
Lemma openFile_error (name : string) (w : os.State) (err : error) :
  fst (openFile name w) = Some err <->
  name <> EmptyString /\
  exists text, os.open_error w name = Some text /\ err = LibError text.
Proof.
  unfold openFile. destruct (nonempty name) eqn:Hn.
  - apply nonempty_true in Hn. unfold os.Open.
    destruct (os.open_error w name) as [text|]; simpl.
    + split.
      * intros H. inversion H. eauto.
      * intros (_ & text' & Ht & ->). congruence.
    + split; [discriminate|]. intros (_ & text' & Ht & _). discriminate.
  - apply nonempty_false in Hn. simpl. split; [discriminate|].
    intros [Hne _]. contradiction.
Qed.

(** The state of the process is the same after the call. *)
Lemma parseCommonConfig_state (c : Context) (w : os.State) :
  snd (parse c w) = w.
Proof.
  rewrite parseCommonConfig_steps.
  pose proof (openFile_state (GetStringFlagValue c "file") w) as Hw.
  destruct ((countInputFlags c =? 0) && _); [reflexivity|].
  destruct (1 <? countInputFlags c); [reflexivity|].
  destruct (openFile _ w) as [[err|] w1]; simpl in Hw; subst w1;
    [reflexivity|].
  destruct (fetcherOf c); [|reflexivity].
  destruct (strconv.ParseInt _); [|reflexivity].
  destruct (_ <=? 0); [reflexivity|].
  destruct (filterOf _); reflexivity.
Qed.

(** Every return of the function gives a configuration and no error, or
    an error and no configuration. *)
Lemma parseCommonConfig_total (c : Context) (w : os.State) :
  succeeds (fst (parse c w)) \/ fails (fst (parse c w)).
Proof.
  rewrite parseCommonConfig_steps. unfold succeeds, fails.
  destruct ((countInputFlags c =? 0) && _); [right; simpl; eauto|].
  destruct (1 <? countInputFlags c); [right; simpl; eauto|].
  destruct (openFile _ w) as [[err|] w1]; [right; simpl; eauto|].
  destruct (fetcherOf c); [|right; simpl; eauto].
  destruct (strconv.ParseInt _); [|right; simpl; eauto].
  destruct (_ <=? 0); [right; simpl; eauto|].
  destruct (filterOf _); [left|right]; simpl; eauto.
Qed.

Lemma succeeds_not_fails (r : result UrlMetricsFetcher) :
  succeeds r -> fails r -> False.
Proof. intros [conf ->] [err H]. discriminate. Qed.

(** What a successful call tells about its input, and what it returns. *)
Lemma parseCommonConfig_ok_inv (c : Context) (w : os.State)
  (conf : commonConfiguration UrlMetricsFetcher) :
  fst (parse c w) = (Some conf, None) ->
  (countInputFlags c = 1 \/
   (countInputFlags c = 0 /\
    os.Getenv w "MOCK_METRICS_DATA" <> EmptyString)) /\
  fst (openFile (GetStringFlagValue c "file") w) = None /\
  exists fetcher intValue re,
    fetcherOf c = inl fetcher /\
    strconv.ParseInt (GetStringFlagValue c "interval") = inl intValue /\
    0 < intValue /\
    filterOf (GetStringFlagValue c "filter") = inl re /\
    conf = mkConf UrlMetricsFetcher (GetStringFlagValue c "file")
             (urlOf c fetcher) (Int64.mul intValue time.Second) re
             (ignoreLabels (GetStringFlagValue c "aggregate-ignore-labels")).
Proof.
  rewrite parseCommonConfig_steps.
  pose proof (countInputFlags_range c) as Hrange.
  destruct (countInputFlags c =? 0) eqn:Hzero;
    destruct (String.eqb_spec (os.Getenv w "MOCK_METRICS_DATA") EmptyString)
      as [Henv|Henv]; simpl andb; cbv iota; try discriminate;
    (destruct (1 <? countInputFlags c) eqn:Hmany; [discriminate|]);
    (destruct (openFile _ w) as [[err|] w1]; [discriminate|]);
    (destruct (fetcherOf c) as [fetcher|]; [|discriminate]);
    (destruct (strconv.ParseInt _) as [intValue|]; [|discriminate]);
    (destruct (intValue <=? 0) eqn:Hpos; [discriminate|]);
    (destruct (filterOf _) as [re|]; [|discriminate]);
    simpl; intros H; inversion H; subst; clear H;
    rewrite ?Z.eqb_eq, ?Z.eqb_neq in Hzero; rewrite Z.ltb_ge in Hmany;
    rewrite Z.leb_gt in Hpos;
    (split; [first [left; lia | right; split; [lia | assumption]]|]);
    (split; [reflexivity|]);
    exists fetcher, intValue, re; repeat split; assumption.
Qed.

(** The converse: when every step passes, the call succeeds. *)
Lemma parseCommonConfig_ok_intro (c : Context) (w : os.State)
  (fetcher : option UrlMetricsFetcher) (intValue : Z)
  (re : option regexp.Regexp) :
  (countInputFlags c = 1 \/
   (countInputFlags c = 0 /\
    os.Getenv w "MOCK_METRICS_DATA" <> EmptyString)) ->
  fst (openFile (GetStringFlagValue c "file") w) = None ->
  fetcherOf c = inl fetcher ->
  strconv.ParseInt (GetStringFlagValue c "interval") = inl intValue ->
  0 < intValue ->
  filterOf (GetStringFlagValue c "filter") = inl re ->
  parse c w =
  (Some (mkConf UrlMetricsFetcher (GetStringFlagValue c "file")
           (urlOf c fetcher) (Int64.mul intValue time.Second) re
           (ignoreLabels (GetStringFlagValue c "aggregate-ignore-labels"))),
   None, w).
Proof.
  intros Hcount Hopen Hfetch Hint Hpos Hfilter.
  rewrite parseCommonConfig_steps.
  pose proof (openFile_state (GetStringFlagValue c "file") w) as Hw.
  destruct (openFile _ w) as [o w1]. simpl in Hopen, Hw. subst o w1.
  rewrite Hfetch, Hint, Hfilter.
  replace (intValue <=? 0) with false by lia.
  destruct Hcount as [Hone|[Hzero Henv]].
  - rewrite Hone. reflexivity.
  - rewrite Hzero.
    destruct (String.eqb_spec (os.Getenv w "MOCK_METRICS_DATA") EmptyString);
      [contradiction|reflexivity].
Qed.

(** When every step before the filter passes and the filter does not
    compile, the call returns the error of the filter. *)
Lemma parseCommonConfig_filter_error (c : Context) (w : os.State)
  (fetcher : option UrlMetricsFetcher) (intValue : Z) (err : error) :
  (countInputFlags c = 1 \/
   (countInputFlags c = 0 /\
    os.Getenv w "MOCK_METRICS_DATA" <> EmptyString)) ->
  fst (openFile (GetStringFlagValue c "file") w) = None ->
  fetcherOf c = inl fetcher ->
  strconv.ParseInt (GetStringFlagValue c "interval") = inl intValue ->
  0 < intValue ->
  filterOf (GetStringFlagValue c "filter") = inr err ->
  parse c w = (None, Some (errInvalidFilter err), w).
Proof.
  intros Hcount Hopen Hfetch Hint Hpos Hfilter.
  rewrite parseCommonConfig_steps.
  pose proof (openFile_state (GetStringFlagValue c "file") w) as Hw.
  destruct (openFile _ w) as [o w1]. simpl in Hopen, Hw. subst o w1.
  rewrite Hfetch, Hint, Hfilter.
  replace (intValue <=? 0) with false by lia.
  destruct Hcount as [Hone|[Hzero Henv]].
  - rewrite Hone. reflexivity.
  - rewrite Hzero.
    destruct (String.eqb_spec (os.Getenv w "MOCK_METRICS_DATA") EmptyString);
      [contradiction|reflexivity].
Qed.

(** *** The four ways the flags alone make the call fail *)

Lemma conflicting_sources_fail (c : Context) (w : os.State) :
  2 <= countInputFlags c ->
  fst (parse c w) = (None, Some errConflictingSources).
Proof.
  intros Hmany. rewrite parseCommonConfig_steps.
  replace (countInputFlags c =? 0) with false by lia.
  replace (1 <? countInputFlags c) with true by lia.
  reflexivity.
Qed.

Lemma missing_source_fails (c : Context) (w : os.State) :
  countInputFlags c = 0 ->
  os.Getenv w "MOCK_METRICS_DATA" = EmptyString ->
  fst (parse c w) = (None, Some errMissingSource).
Proof.
  intros Hzero Henv. rewrite parseCommonConfig_steps, Hzero, Henv.
  reflexivity.
Qed.

Lemma bad_interval_fails (c : Context) (w : os.State) :
  badInterval (GetStringFlagValue c "interval") -> fails (fst (parse c w)).
Proof.
  unfold badInterval. intros Hbad.
  destruct (parseCommonConfig_total c w) as [[conf Hok]|Hfail];
    [|assumption].
  apply parseCommonConfig_ok_inv in Hok.
  destruct Hok as (_ & _ & fetcher & n & re & _ & Hint & Hpos & _).
  rewrite Hint in Hbad. lia.
Qed.

Lemma compileFilter_error (flagValue : string) (err : error) :
  filterOf flagValue = inr err <->
  flagValue <> EmptyString /\ Compile syntax_Parse flagValue = inr err.
Proof.
  unfold compileFilter. destruct (nonempty flagValue) eqn:Hn.
  - apply nonempty_true in Hn.
    destruct (Compile syntax_Parse flagValue); split.
    + discriminate.
    + intros [_ H]. discriminate.
    + intros H. inversion H. split; [assumption|reflexivity].
    + intros [_ H]. inversion H. reflexivity.
  - apply nonempty_false in Hn. split; [discriminate|].
    intros [Hne _]. contradiction.
Qed.

Lemma compileFilter_ok (flagValue : string) (re : regexp.Regexp) :
  flagValue <> EmptyString ->
  Compile syntax_Parse flagValue = inl re ->
  filterOf flagValue = inl (Some re).
Proof.
  intros Hn Hc. apply nonempty_true in Hn. unfold compileFilter.
  now rewrite Hn, Hc.
Qed.

Lemma bad_filter_fails (c : Context) (w : os.State) :
  badFilter syntax_Parse (GetStringFlagValue c "filter") ->
  fails (fst (parse c w)).
Proof.
  intros (Hn & err & Hc).
  destruct (parseCommonConfig_total c w) as [[conf Hok]|Hfail];
    [|assumption].
  apply parseCommonConfig_ok_inv in Hok.
  destruct Hok as (_ & _ & fetcher & n & re & _ & _ & _ & Hfilter & _).
  assert (Herr : filterOf (GetStringFlagValue c "filter") = inr err)
    by (apply compileFilter_error; tauto).
  congruence.
Qed.

(** *** Setting the filter flag touches the filter step only *)

Lemma GetStringFlagValue_set_ne (c : Context) (k v k' : string) :
  k <> k' ->
  GetStringFlagValue (setStringFlag c k v) k' = GetStringFlagValue c k'.
Proof.
  intros Hne. rewrite GetStringFlagValue_set.
  destruct (String.eqb_spec k k'); [contradiction|reflexivity].
Qed.

Lemma GetStringFlagValue_set_eq (c : Context) (k v : string) :
  GetStringFlagValue (setStringFlag c k v) k = v.
Proof. rewrite GetStringFlagValue_set. now rewrite String.eqb_refl. Qed.

Lemma countInputFlags_set_filter (c : Context) (v : string) :
  countInputFlags (setStringFlag c "filter" v) = countInputFlags c.
Proof.
  unfold countInputFlags.
  rewrite !GetStringFlagValue_set_ne by discriminate. reflexivity.
Qed.

Lemma artifactoryFetcher_set_filter (c : Context) (v : string) :
  fetcherOf (setStringFlag c "filter" v) = fetcherOf c.
Proof.
  unfold artifactoryFetcher.
  rewrite !GetStringFlagValue_set_ne by discriminate. reflexivity.
Qed.

Lemma urlFetcher_set_filter (c : Context) (v : string)
  (fetcher : option UrlMetricsFetcher) :
  urlOf (setStringFlag c "filter" v) fetcher = urlOf c fetcher.
Proof.
  unfold urlFetcher.
  rewrite !GetStringFlagValue_set_ne by discriminate. reflexivity.
Qed.

(** A filter is never nil in a configuration that is returned, so that
    [String()] does not panic on it. *)
Lemma filter_never_nil (c : Context) (w : os.State)
  (conf : commonConfiguration UrlMetricsFetcher) :
  fst (parse c w) = (Some conf, None) ->
  Filter conf <> None /\ String_ conf <> None.
Proof.
  intros Hok. apply parseCommonConfig_ok_inv in Hok.
  destruct Hok as (_ & _ & fetcher & n & re & _ & _ & _ & Hfilter & ->).
  unfold compileFilter in Hfilter. unfold Filter, String_. simpl.
  destruct (nonempty _).
  - destruct (Compile syntax_Parse _); inversion Hfilter. split; discriminate.
  - inversion Hfilter. split; discriminate.
Qed.

(** On success the interval is the flag, a positive integer, times a
    second on 64 bits. *)
Lemma interval_of_success (c : Context) (w : os.State)
  (conf : commonConfiguration UrlMetricsFetcher) :
  fst (parse c w) = (Some conf, None) ->
  exists intValue,
    strconv.ParseInt (GetStringFlagValue c "interval") = inl intValue /\
    0 < intValue /\
    Interval conf = Int64.mul intValue time.Second.
Proof.
  intros Hok. apply parseCommonConfig_ok_inv in Hok.
  destruct Hok as (_ & _ & fetcher & n & re & _ & Hint & Hpos & _ & ->).
  exists n. repeat split; assumption.
Qed.

(** Up to 9223372036 seconds the interval is exact: that many seconds. *)
Lemma interval_in_seconds (c : Context) (w : os.State)
  (conf : commonConfiguration UrlMetricsFetcher) (intValue : Z) :
  fst (parse c w) = (Some conf, None) ->
  strconv.ParseInt (GetStringFlagValue c "interval") = inl intValue ->
  intValue <= 9223372036 ->
  Interval conf = intValue * time.Second /\ time.Second <= Interval conf.
Proof.
  intros Hok Hint Hle. apply interval_of_success in Hok.
  destruct Hok as (n & Hint' & Hpos & ->).
  assert (n = intValue) by congruence. subst n.
  rewrite Int64_mul_exact.
  - unfold time.Second. lia.
  - unfold Int64.in_range, Int64.min_int, Int64.max_int, time.Second. lia.
Qed.

(** Beyond that the product does not fit in 64 bits, and the interval is
    not that many seconds. *)
Lemma interval_overflow (intValue : Z) :
  9223372036 < intValue ->
  Int64.mul intValue time.Second <> intValue * time.Second.
Proof.
  unfold Int64.mul, Int64.wrap, Int64.modulus, time.Second. intros Hbig.
  pose proof (Z.mod_pos_bound (intValue * 1000000000 + 2 ^ 63) (2 ^ 64)).
  lia.
Qed.

(** The default of the interval flag gives five seconds. *)
Lemma default_interval (c : Context) (w : os.State)
  (conf : commonConfiguration UrlMetricsFetcher) :
  fst (parse c w) = (Some conf, None) ->
  GetStringFlagValue c "interval" = DefaultValue IntervalFlag ->
  Interval conf = 5 * time.Second.
Proof.
  intros Hok Hflag.
  apply (interval_in_seconds c w conf 5 Hok); [|lia].
  rewrite Hflag. reflexivity.
Qed.

End Properties.

(** ** The claims of the specification *)

Section Claims.

Variable ServerDetails : Type.
Variable UrlMetricsFetcher : Type.
Variable GetConfig : string -> bool -> ServerDetails + error.
Variable NewArtifactoryMetricsFetcher :
  ServerDetails -> UrlMetricsFetcher + error.
Variable NewUrlMetricsFetcher : string -> string -> string -> UrlMetricsFetcher.
Variable syntax_Parse : string -> regexp.syntax + error.

Local Abbreviation parse :=
  (parseCommonConfig ServerDetails UrlMetricsFetcher GetConfig
     NewArtifactoryMetricsFetcher NewUrlMetricsFetcher syntax_Parse).
Local Abbreviation fetcherOf :=
  (artifactoryFetcher ServerDetails UrlMetricsFetcher GetConfig
     NewArtifactoryMetricsFetcher).
Local Abbreviation filterOf := (compileFilter syntax_Parse).
Local Abbreviation urlOf := (urlFetcher UrlMetricsFetcher NewUrlMetricsFetcher).
Local Abbreviation ok_inv :=
  (parseCommonConfig_ok_inv ServerDetails UrlMetricsFetcher GetConfig
     NewArtifactoryMetricsFetcher NewUrlMetricsFetcher syntax_Parse).
Local Abbreviation steps :=
  (parseCommonConfig_steps ServerDetails UrlMetricsFetcher GetConfig
     NewArtifactoryMetricsFetcher NewUrlMetricsFetcher syntax_Parse).

(** Claim C1, as amended.  Configuration resolution requires exactly one
    metrics source: when two or more of the file, url and artifactory
    sources are selected, [parseCommonConfig] returns an error and no
    configuration; and when none of the three is selected and the
    variable MOCK_METRICS_DATA of the environment is empty, it returns an
    error and no configuration. *)
Theorem source_selection_required (c : Context) (w : os.State) :
  2 <= countInputFlags c \/
  (countInputFlags c = 0 /\
   os.Getenv w "MOCK_METRICS_DATA" = EmptyString) ->
  fails (fst (parse c w)).
Proof.
  intros [Hmany|[Hzero Henv]].
  - exists errConflictingSources. now apply conflicting_sources_fail.
  - exists errMissingSource. now apply missing_source_fails.
Qed.

(** The error for a lack of a source is returned exactly when no source
    is selected and the mock-data variable is empty. *)
Lemma missing_source_error_iff (c : Context) (w : os.State) :
  snd (fst (parse c w)) = Some errMissingSource <->
  countInputFlags c = 0 /\ os.Getenv w "MOCK_METRICS_DATA" = EmptyString.
Proof.
  rewrite steps.
  destruct (Z.eqb_spec (countInputFlags c) 0) as [Hzero|Hzero];
    destruct (String.eqb_spec (os.Getenv w "MOCK_METRICS_DATA") EmptyString)
      as [Henv|Henv]; simpl andb; cbv iota.
  1: { simpl. tauto. }
  all: split; [|tauto]; intros H; exfalso; revert H.
  all: destruct (1 <? countInputFlags c); [simpl; discriminate|].
  all: destruct (openFile _ w) as [[err|] w1]; [simpl; discriminate|].
  all: unfold artifactoryFetcher.
  all: destruct (GetBoolFlagValue c "artifactory").
  all: try destruct (GetConfig _ false) as [d|];
    try destruct (NewArtifactoryMetricsFetcher d);
    try (simpl; discriminate).
  all: destruct (strconv.ParseInt _) as [n|]; [|simpl; discriminate].
  all: destruct (n <=? 0); [simpl; discriminate|].
  all: destruct (filterOf _); simpl; discriminate.
Qed.

(** Claim C8.  When none of the file, url and artifactory sources is
    selected but the variable MOCK_METRICS_DATA of the environment is set
    to a value that is not empty, configuration resolution does not fail
    for lack of a source: the missing-source error is raised only when
    that variable is empty. *)
Theorem mock_data_lifts_missing_source (c : Context) (w : os.State) :
  countInputFlags c = 0 ->
  (os.Getenv w "MOCK_METRICS_DATA" <> EmptyString ->
   snd (fst (parse c w)) <> Some errMissingSource) /\
  (snd (fst (parse c w)) = Some errMissingSource ->
   os.Getenv w "MOCK_METRICS_DATA" = EmptyString) /\
  (os.Getenv w "MOCK_METRICS_DATA" = EmptyString ->
   fst (parse c w) = (None, Some errMissingSource)).
Proof.
  intros Hzero. repeat split.
  - intros Hset Herr. apply missing_source_error_iff in Herr. tauto.
  - intros Herr. apply missing_source_error_iff in Herr. tauto.
  - intros Henv. rewrite steps, Hzero, Henv. reflexivity.
Qed.

(** Claim C4.  When the aggregate-ignore-labels flag is left at its
    default, the resolved ignore-label set is exactly
    {start, end, status}; in general, for every flag value that is not
    empty the resolved set is the set of the substrings obtained by
    splitting the flag value on commas: pieces that hold no comma and
    that, joined by commas, give the flag value back. *)
Theorem ignore_labels_resolved (c : Context) (w : os.State)
  (conf : commonConfiguration UrlMetricsFetcher) :
  fst (parse c w) = (Some conf, None) ->
  let flagValue := GetStringFlagValue c "aggregate-ignore-labels" in
  (flagValue = DefaultValue AggregateIgnoreLabelsFlag ->
   AggregateIgnoreLabels conf = {[ "start"; "end"; "status" ]}) /\
  (flagValue <> EmptyString ->
   AggregateIgnoreLabels conf = list_to_set (strings.Split flagValue ",") /\
   strings.Join (strings.Split flagValue ",") "," = flagValue /\
   Forall (fun piece => strings.ContainsByte piece "," = false)
     (strings.Split flagValue ",")).
Proof.
  intros Hok flagValue. apply ok_inv in Hok.
  destruct Hok as (_ & _ & fetcher & n & re & _ & _ & _ & _ & ->).
  unfold AggregateIgnoreLabels. simpl. fold flagValue. split.
  - intros ->. vm_compute. reflexivity.
  - intros Hn. apply nonempty_true in Hn. unfold ignoreLabels. rewrite Hn.
    split; [apply Add_empty|]. split; [apply Join_Split|apply Split_pieces].
Qed.

(** Claim C5.  When no filter flag is given (the value of the filter
    flag is empty), the resolved compiled filter matches every string:
    for every family name [s], the filter accepts [s]. *)
Theorem default_filter_matches_everything (c : Context) (w : os.State)
  (conf : commonConfiguration UrlMetricsFetcher) :
  fst (parse c w) = (Some conf, None) ->
  GetStringFlagValue c "filter" = EmptyString ->
  exists re, Filter conf = Some re /\
             forall s : string, regexp.MatchString re s = true.
Proof.
  intros Hok Hflag. apply ok_inv in Hok.
  destruct Hok as (_ & _ & fetcher & n & re & _ & _ & _ & Hfilter & ->).
  rewrite Hflag in Hfilter. unfold compileFilter in Hfilter. simpl in Hfilter.
  inversion Hfilter; subst re. exists regexp.MustCompile_dot_star.
  split; [reflexivity|]. intros s. apply MatchString_star.
Qed.

(** Claim C6, as amended.  For every filter flag value that is not empty
    and is not a valid regular expression, [parseCommonConfig] returns an
    error and no configuration: whatever the other flags, and the error
    of the filter itself when the call with the filter flag left empty
    succeeds.  For every valid pattern the call succeeds whenever it
    succeeds with the filter flag left empty, with the same
    configuration but for the filter, and the resolved filter is the
    compiled form of exactly that pattern. *)
Theorem filter_flag_compiled (c : Context) (w : os.State) (p : string) :
  GetStringFlagValue c "filter" = p ->
  p <> EmptyString ->
  match Compile syntax_Parse p with
  | inr err =>
      fails (fst (parse c w)) /\
      (succeeds (fst (parse (setStringFlag c "filter" EmptyString) w)) ->
       fst (parse c w) = (None, Some (errInvalidFilter err)))
  | inl re =>
      regexp.String_ re = p /\
      (forall conf, fst (parse c w) = (Some conf, None) ->
                    Filter conf = Some re) /\
      (forall conf0,
         fst (parse (setStringFlag c "filter" EmptyString) w)
         = (Some conf0, None) ->
         fst (parse c w) = (Some (withFilter conf0 re), None))
  end.
Proof.
  intros Hflag Hp.
  assert (Hwithout :
    forall conf0,
      fst (parse (setStringFlag c "filter" EmptyString) w)
      = (Some conf0, None) ->
      (countInputFlags c = 1 \/
       (countInputFlags c = 0 /\
        os.Getenv w "MOCK_METRICS_DATA" <> EmptyString)) /\
      fst (openFile (GetStringFlagValue c "file") w) = None /\
      exists fetcher intValue,
        fetcherOf c = inl fetcher /\
        strconv.ParseInt (GetStringFlagValue c "interval") = inl intValue /\
        0 < intValue /\
        forall re, withFilter conf0 re =
          mkConf UrlMetricsFetcher (GetStringFlagValue c "file")
            (urlOf c fetcher) (Int64.mul intValue time.Second) (Some re)
            (ignoreLabels (GetStringFlagValue c "aggregate-ignore-labels"))).
  { intros conf0 H0. apply ok_inv in H0.
    destruct H0 as (Hcount & Hopen & fetcher & n & re0 & Hf & Hi & Hpos
                    & _ & ->).
    rewrite countInputFlags_set_filter in Hcount.
    rewrite artifactoryFetcher_set_filter in Hf.
    rewrite urlFetcher_set_filter.
    rewrite GetStringFlagValue_set_ne in Hopen, Hi by discriminate.
    rewrite !GetStringFlagValue_set_ne by discriminate.
    split; [assumption|]. split; [assumption|].
    exists fetcher, n. repeat split; assumption. }
  destruct (Compile syntax_Parse p) as [re|err] eqn:Hc.
  - split; [|split].
    + unfold Compile in Hc. destruct (syntax_Parse p); inversion Hc.
      reflexivity.
    + intros conf Hok. apply ok_inv in Hok.
      destruct Hok as (_ & _ & fetcher & n & re' & _ & _ & _ & Hfilter & ->).
      rewrite Hflag, (compileFilter_ok _ p re Hp Hc) in Hfilter.
      inversion Hfilter. reflexivity.
    + intros conf0 H0. apply Hwithout in H0.
      destruct H0 as (Hcount & Hopen & fetcher & n & Hf & Hi & Hpos & Hconf).
      rewrite (Hconf re).
      erewrite parseCommonConfig_ok_intro; try eassumption; [reflexivity|].
      rewrite Hflag. now apply compileFilter_ok.
  - split.
    + apply bad_filter_fails. rewrite Hflag. split; eauto.
    + intros [conf0 H0]. apply Hwithout in H0.
      destruct H0 as (Hcount & Hopen & fetcher & n & Hf & Hi & Hpos & _).
      erewrite parseCommonConfig_filter_error; try eassumption;
        [reflexivity|].
      rewrite Hflag. apply compileFilter_error. tauto.
Qed.

(** Claim C7, as amended.  Configuration resolution is atomic: for every
    input, [parseCommonConfig] returns either a configuration and a nil
    error, or a nil configuration and an error, never both; every
    invalid input (a conflicting source selection, a missing source
    selection while the variable MOCK_METRICS_DATA of the environment is
    empty, an interval that is not positive, a filter pattern that is
    not valid) yields the error outcome. *)
Theorem resolution_is_atomic (c : Context) (w : os.State) :
  (succeeds (fst (parse c w)) \/ fails (fst (parse c w))) /\
  ~ (succeeds (fst (parse c w)) /\ fails (fst (parse c w))) /\
  (invalidInput syntax_Parse c w -> fails (fst (parse c w))).
Proof.
  split; [apply parseCommonConfig_total|]. split.
  - intros [Hs Hf]. exact (succeeds_not_fails _ _ Hs Hf).
  - intros [Hmany|Hzero Henv|Hint|Hfilter].
    + exists errConflictingSources. now apply conflicting_sources_fail.
    + exists errMissingSource. now apply missing_source_fails.
    + now apply bad_interval_fails.
    + now apply bad_filter_fails.
Qed.

(** Claim C9.  If the file source is selected and the given path cannot
    be opened at configuration-resolution time, [parseCommonConfig]
    returns an error and no configuration (the error of the open, when
    the file is the one source selected); if the open succeeds, the file
    handle is closed at once, the process holding the same descriptors
    after the call as before; and only the path string is kept in the
    configuration. *)
Theorem file_is_checked_at_startup (c : Context) (w : os.State) :
  let path := GetStringFlagValue c "file" in
  (forall text,
     path <> EmptyString ->
     os.open_error w path = Some text ->
     fails (fst (parse c w)) /\
     (countInputFlags c = 1 ->
      fst (parse c w)
      = (None, Some (Errorf "could not open file %s: %w"
                       [ArgString path; ArgErr (LibError text)])))) /\
  (forall fd w1,
     os.Open path w = (inl fd, w1) ->
     fd ∈ os.open_fds w1 /\ fd ∉ os.open_fds (snd (parse c w))) /\
  os.open_fds (snd (parse c w)) = os.open_fds w /\
  (forall conf, fst (parse c w) = (Some conf, None) -> File conf = path).
Proof.
  intros path. repeat split.
  - destruct (parseCommonConfig_total ServerDetails UrlMetricsFetcher
                GetConfig NewArtifactoryMetricsFetcher NewUrlMetricsFetcher
                syntax_Parse c w) as [[conf Hok]|Hfail]; [|assumption].
    apply ok_inv in Hok. destruct Hok as (_ & Hopen & _).
    assert (Herr : fst (openFile path w) = Some (LibError text))
      by (apply openFile_error; eauto).
    fold path in Hopen. congruence.
  - intros Hone. rewrite steps, Hone. simpl.
    assert (Herr : fst (openFile path w) = Some (LibError text))
      by (apply openFile_error; eauto).
    fold path. destruct (openFile path w) as [o w1]. simpl in Herr. subst o.
    reflexivity.
  - unfold os.Open in H. destruct (os.open_error w path); [discriminate|].
    inversion H; subst. simpl. apply elem_of_union. left.
    now apply elem_of_singleton.
  - rewrite parseCommonConfig_state. unfold os.Open in H.
    destruct (os.open_error w path); [discriminate|].
    inversion H; subst. apply is_fresh.
  - now rewrite parseCommonConfig_state.
  - intros conf Hok. apply ok_inv in Hok.
    destruct Hok as (_ & _ & fetcher & n & re & _ & _ & _ & _ & ->).
    reflexivity.
Qed.

End Claims.

(** ** The model at work *)

Example ParseInt_examples :
  strconv.ParseInt "5" = inl 5 /\
  strconv.ParseInt "+5" = inl 5 /\
  strconv.ParseInt "-5" = inl (-5) /\
  strconv.ParseInt "007" = inl 7 /\
  strconv.ParseInt EmptyString = inr strconv.ErrSyntax /\
  strconv.ParseInt "5s" = inr strconv.ErrSyntax /\
  strconv.ParseInt "1_000" = inr strconv.ErrSyntax /\
  strconv.ParseInt "9223372036854775807" = inl 9223372036854775807 /\
  strconv.ParseInt "9223372036854775808" = inr strconv.ErrRange /\
  strconv.ParseInt "-9223372036854775808" = inl (-9223372036854775808).
Proof. repeat split; reflexivity. Qed.

Example Split_examples :
  strings.Split "start,end,status" "," = ["start"; "end"; "status"] /\
  strings.Split "a,,b," "," = ["a"; EmptyString; "b"; EmptyString] /\
  strings.Split "ALL" "," = ["ALL"] /\
  strings.Split EmptyString "," = [EmptyString].
Proof. repeat split; reflexivity. Qed.

(** The filter of the specification's example keeps the families whose
    name starts with [http_]. *)
Example filter_exclusivity :
  exists re,
    Compile Sample.Parse "^http_" = inl re /\
    regexp.MatchString re "http_requests_total" = true /\
    regexp.MatchString re "cpu_usage" = false /\
    regexp.MatchString re "http_errors_total" = true.
Proof. eexists. repeat split; vm_compute; reflexivity. Qed.

Example conflicting_sources_example :
  fst (Sample.parseCommonConfig Sample.fromUrlAndArtifactory Sample.plain)
  = (None, Some errConflictingSources).
Proof. vm_compute. reflexivity. Qed.

Example unknown_server_example :
  fst (Sample.parseCommonConfig Sample.fromUnknownServer Sample.plain)
  = (None,
     Some (Errorf "%s; cause: %w"
             [ArgString "could not load configuration for Artifactory server unknown";
              ArgErr (LibError "Server ID 'unknown' does not exist.")])).
Proof. vm_compute. reflexivity. Qed.

Example unparsable_interval_example :
  fst (Sample.parseCommonConfig
         (setStringFlag Sample.fromFile "interval" "5s") Sample.plain)
  = (None,
     Some (Errorf "failed to parse interval value: %s; cause: %w"
             [ArgString "5s"; ArgErr (NumError strconv.ErrSyntax)])).
Proof. vm_compute. reflexivity. Qed.

(** Claim C1, as the specification states it, fails: with no source
    selected and MOCK_METRICS_DATA set, the call returns a
    configuration. *)
Lemma no_source_with_mock_data_succeeds :
  countInputFlags Sample.defaults = 0 /\
  fst (Sample.parseCommonConfig Sample.defaults Sample.mocked)
  = (Some (mkConf Sample.fetcher EmptyString None 5000000000
             (Some regexp.MustCompile_dot_star)
             {[ "start"; "end"; "status" ]}),
     None).
Proof. split; vm_compute; reflexivity. Qed.

Lemma source_selection_required_witness :
  ((2 <= countInputFlags Sample.fromFileAndUrl \/
    (countInputFlags Sample.fromFileAndUrl = 0 /\
     os.Getenv Sample.plain "MOCK_METRICS_DATA" = EmptyString)) /\
   fails (fst (Sample.parseCommonConfig Sample.fromFileAndUrl Sample.plain)))
  /\
  ((2 <= countInputFlags Sample.defaults \/
    (countInputFlags Sample.defaults = 0 /\
     os.Getenv Sample.plain "MOCK_METRICS_DATA" = EmptyString)) /\
   fails (fst (Sample.parseCommonConfig Sample.defaults Sample.plain))).
Proof.
  assert (Hmany : 2 <= countInputFlags Sample.fromFileAndUrl \/
                  (countInputFlags Sample.fromFileAndUrl = 0 /\
                   os.Getenv Sample.plain "MOCK_METRICS_DATA" = EmptyString)).
  { left. vm_compute. discriminate. }
  assert (Hnone : 2 <= countInputFlags Sample.defaults \/
                  (countInputFlags Sample.defaults = 0 /\
                   os.Getenv Sample.plain "MOCK_METRICS_DATA" = EmptyString)).
  { right. split; vm_compute; reflexivity. }
  split; (split; [eassumption|]).
  - exact (source_selection_required string Sample.fetcher Sample.GetConfig
             Sample.NewArtifactoryMetricsFetcher Sample.UrlFetcher
             Sample.Parse Sample.fromFileAndUrl Sample.plain Hmany).
  - exact (source_selection_required string Sample.fetcher Sample.GetConfig
             Sample.NewArtifactoryMetricsFetcher Sample.UrlFetcher
             Sample.Parse Sample.defaults Sample.plain Hnone).
Defined.

Lemma mock_data_lifts_missing_source_witness :
  countInputFlags Sample.defaults = 0 /\
  (os.Getenv Sample.mocked "MOCK_METRICS_DATA" <> EmptyString ->
   snd (fst (Sample.parseCommonConfig Sample.defaults Sample.mocked))
   <> Some errMissingSource) /\
  (snd (fst (Sample.parseCommonConfig Sample.defaults Sample.mocked))
   = Some errMissingSource ->
   os.Getenv Sample.mocked "MOCK_METRICS_DATA" = EmptyString) /\
  (os.Getenv Sample.mocked "MOCK_METRICS_DATA" = EmptyString ->
   fst (Sample.parseCommonConfig Sample.defaults Sample.mocked)
   = (None, Some errMissingSource)).
Proof.
  assert (H : countInputFlags Sample.defaults = 0) by (vm_compute; reflexivity).
  split; [exact H|].
  exact (mock_data_lifts_missing_source string Sample.fetcher Sample.GetConfig
           Sample.NewArtifactoryMetricsFetcher Sample.UrlFetcher Sample.Parse
           Sample.defaults Sample.mocked H).
Defined.

(** Claim C2 fails on the code at the interval flag 9223372037: the flag
    parses as that positive integer and the call succeeds, but the
    product with a second wraps around on 64 bits, and the resolved
    interval is a negative count of nanoseconds, not that many
    seconds. *)
Theorem interval_wraps_around :
  GetStringFlagValue Sample.everyLongWhile "interval" = "9223372037" /\
  strconv.ParseInt "9223372037" = inl 9223372037 /\
  fst (Sample.parseCommonConfig Sample.everyLongWhile Sample.plain)
  = (Some (mkConf Sample.fetcher "metrics.log" None (-9223372036709551616)
             (Some regexp.MustCompile_dot_star)
             {[ "start"; "end"; "status" ]}),
     None) /\
  -9223372036709551616 <> 9223372037 * time.Second.
Proof. repeat split; vm_compute; congruence. Qed.

Lemma ignore_labels_resolved_witness :
  fst (Sample.parseCommonConfig Sample.ignoreHostPod Sample.plain)
  = (Some Sample.confIgnoreHostPod, None) /\
  GetStringFlagValue Sample.ignoreHostPod "aggregate-ignore-labels"
  <> EmptyString /\
  AggregateIgnoreLabels Sample.confIgnoreHostPod
  = list_to_set
      (strings.Split
         (GetStringFlagValue Sample.ignoreHostPod "aggregate-ignore-labels")
         ",").
Proof.
  assert (H : fst (Sample.parseCommonConfig Sample.ignoreHostPod Sample.plain)
              = (Some Sample.confIgnoreHostPod, None))
    by (vm_compute; reflexivity).
  assert (Hflag : GetStringFlagValue Sample.ignoreHostPod
                    "aggregate-ignore-labels" <> EmptyString)
    by (vm_compute; discriminate).
  split; [exact H|]. split; [exact Hflag|].
  exact (proj1 (proj2
           (ignore_labels_resolved string Sample.fetcher
              Sample.GetConfig Sample.NewArtifactoryMetricsFetcher
              Sample.UrlFetcher Sample.Parse Sample.ignoreHostPod Sample.plain
              Sample.confIgnoreHostPod H) Hflag)).
Defined.

Lemma default_filter_matches_everything_witness :
  fst (Sample.parseCommonConfig Sample.fromFile Sample.plain)
  = (Some Sample.confFromFile, None) /\
  GetStringFlagValue Sample.fromFile "filter" = EmptyString /\
  exists re,
    Filter Sample.confFromFile = Some re /\
    forall s : string, regexp.MatchString re s = true.
Proof.
  assert (H : fst (Sample.parseCommonConfig Sample.fromFile Sample.plain)
              = (Some Sample.confFromFile, None))
    by (vm_compute; reflexivity).
  assert (Hflag : GetStringFlagValue Sample.fromFile "filter" = EmptyString)
    by (vm_compute; reflexivity).
  split; [exact H|]. split; [exact Hflag|].
  exact (default_filter_matches_everything string Sample.fetcher
           Sample.GetConfig Sample.NewArtifactoryMetricsFetcher
           Sample.UrlFetcher Sample.Parse Sample.fromFile Sample.plain
           Sample.confFromFile H Hflag).
Defined.

(** Claim C6, as the specification states it, fails: a pattern that is
    valid does not make the call succeed when another flag is refused,
    here an interval of zero. *)
Lemma valid_filter_beside_refused_interval :
  GetStringFlagValue Sample.filterHttpEveryZero "filter" = "^http_" /\
  (exists re, Compile Sample.Parse "^http_" = inl re) /\
  fst (Sample.parseCommonConfig Sample.filterHttpEveryZero Sample.plain)
  = (None, Some (Errorf "interval value must be positive; got: %d"
                   [ArgInt 0])).
Proof.
  split; [vm_compute; reflexivity|]. split; [|vm_compute; reflexivity].
  eexists. vm_compute. reflexivity.
Qed.

Lemma filter_flag_compiled_witness :
  (GetStringFlagValue Sample.filterHttp "filter" = "^http_" /\
   "^http_" <> EmptyString /\
   exists re,
     Compile Sample.Parse "^http_" = inl re /\
     regexp.String_ re = "^http_" /\
     fst (Sample.parseCommonConfig Sample.filterHttp Sample.plain)
     = (Some (withFilter Sample.confFromFile re), None)) /\
  (GetStringFlagValue Sample.filterBroken "filter" = "(" /\
   "(" <> EmptyString /\
   exists err,
     Compile Sample.Parse "(" = inr err /\
     fst (Sample.parseCommonConfig Sample.filterBroken Sample.plain)
     = (None, Some (errInvalidFilter err))).
Proof.
  split.
  - assert (Hflag : GetStringFlagValue Sample.filterHttp "filter" = "^http_")
      by (vm_compute; reflexivity).
    assert (Hp : "^http_" <> EmptyString) by discriminate.
    split; [exact Hflag|]. split; [exact Hp|].
    pose proof (filter_flag_compiled string Sample.fetcher Sample.GetConfig
                  Sample.NewArtifactoryMetricsFetcher Sample.UrlFetcher
                  Sample.Parse Sample.filterHttp Sample.plain "^http_"
                  Hflag Hp) as T.
    destruct (Compile Sample.Parse "^http_") as [re|err] eqn:Hc;
      [|vm_compute in Hc; discriminate].
    exists re. destruct T as (Hsrc & _ & Hsame).
    split; [reflexivity|]. split; [exact Hsrc|].
    apply Hsame. vm_compute. reflexivity.
  - assert (Hflag : GetStringFlagValue Sample.filterBroken "filter" = "(")
      by (vm_compute; reflexivity).
    assert (Hp : "(" <> EmptyString) by discriminate.
    split; [exact Hflag|]. split; [exact Hp|].
    pose proof (filter_flag_compiled string Sample.fetcher Sample.GetConfig
                  Sample.NewArtifactoryMetricsFetcher Sample.UrlFetcher
                  Sample.Parse Sample.filterBroken Sample.plain "("
                  Hflag Hp) as T.
    destruct (Compile Sample.Parse "(") as [re|err] eqn:Hc;
      [vm_compute in Hc; discriminate|].
    exists err. destruct T as (_ & Hsame).
    split; [reflexivity|].
    apply Hsame. exists Sample.confFromFile. vm_compute. reflexivity.
Defined.

(** Claim C7, as the specification states it, fails: with
    MOCK_METRICS_DATA set, an input whose source selection is missing
    yields a configuration, not the error outcome. *)
Lemma missing_source_accepted_with_mock_data :
  countInputFlags Sample.everyTenSeconds = 0 /\
  fst (Sample.parseCommonConfig Sample.everyTenSeconds Sample.mocked)
  = (Some Sample.confEveryTenSeconds, None).
Proof. split; vm_compute; reflexivity. Qed.

Lemma resolution_is_atomic_witness :
  invalidInput Sample.Parse Sample.everyZero Sample.plain /\
  fails (fst (Sample.parseCommonConfig Sample.everyZero Sample.plain)).
Proof.
  assert (H : invalidInput Sample.Parse Sample.everyZero Sample.plain).
  { apply NonPositiveInterval. vm_compute. discriminate. }
  split; [exact H|].
  exact (proj2 (proj2
           (resolution_is_atomic string Sample.fetcher Sample.GetConfig
              Sample.NewArtifactoryMetricsFetcher Sample.UrlFetcher
              Sample.Parse Sample.everyZero Sample.plain)) H).
Defined.

Lemma file_is_checked_at_startup_witness :
  GetStringFlagValue Sample.fromMissingFile "file" <> EmptyString /\
  os.open_error Sample.plain
    (GetStringFlagValue Sample.fromMissingFile "file")
  = Some "open missing.log: no such file or directory" /\
  fails (fst (Sample.parseCommonConfig Sample.fromMissingFile Sample.plain)).
Proof.
  assert (Hpath : GetStringFlagValue Sample.fromMissingFile "file"
                  <> EmptyString) by (vm_compute; discriminate).
  assert (Hopen : os.open_error Sample.plain
                    (GetStringFlagValue Sample.fromMissingFile "file")
                  = Some "open missing.log: no such file or directory")
    by (vm_compute; reflexivity).
  split; [exact Hpath|]. split; [exact Hopen|].
  exact (proj1 (proj1
           (file_is_checked_at_startup string Sample.fetcher Sample.GetConfig
              Sample.NewArtifactoryMetricsFetcher Sample.UrlFetcher
              Sample.Parse Sample.fromMissingFile Sample.plain)
           _ Hpath Hopen)).
Defined.

(** Claim C10 fails on the code at the interval flag 36028797018963968,
    two to the power 55: the call succeeds, the filter of the
    configuration is not nil, but its interval, that many seconds
    wrapped around on 64 bits, is zero, less than one second. *)
Theorem zero_interval_is_returned :
  GetStringFlagValue Sample.everyTwoPow55 "interval" = "36028797018963968" /\
  fst (Sample.parseCommonConfig Sample.everyTwoPow55 Sample.plain)
  = (Some Sample.confEveryTwoPow55, None) /\
  Filter Sample.confEveryTwoPow55 = Some regexp.MustCompile_dot_star /\
  Interval Sample.confEveryTwoPow55 = 0 /\
  Interval Sample.confEveryTwoPow55 < time.Second.
Proof. repeat split; vm_compute; reflexivity. Qed.

(** * Further properties of the file *)

(** ** The decimal notation [strconv.ParseInt] accepts *)

Lemma isDigit_digit_of (c : ascii) :
  isDigit c = true ->
  strconv.digit_of c = Some (Z.of_N (N_of_ascii c) - 48) /\
  0 <= Z.of_N (N_of_ascii c) - 48 < 10.
Proof.
  unfold isDigit, strconv.digit_of. intros H. rewrite H.
  apply andb_true_iff in H. destruct H as [Hlo Hhi].
  apply Z.leb_le in Hlo, Hhi. split; [reflexivity|lia].
Qed.

Lemma digit_of_isDigit (c : ascii) (d : Z) :
  strconv.digit_of c = Some d -> d < 10 ->
  isDigit c = true /\ d = Z.of_N (N_of_ascii c) - 48.
Proof.
  unfold isDigit, strconv.digit_of.
  destruct ((48 <=? Z.of_N (N_of_ascii c)) && (Z.of_N (N_of_ascii c) <=? 57)).
  - intros H _. inversion H. split; reflexivity.
  - destruct ((97 <=? Z.lor (Z.of_N (N_of_ascii c)) 32)
              && (Z.lor (Z.of_N (N_of_ascii c)) 32 <=? 122)) eqn:Hl;
      [|discriminate].
    intros H Hd. inversion H; subst d.
    apply andb_true_iff in Hl. destruct Hl as [Hlo _].
    apply Z.leb_le in Hlo. lia.
Qed.

Lemma decimalFrom_ge (s : string) (acc : Z) :
  allDigits s = true -> 0 <= acc -> acc <= decimalFrom acc s.
Proof.
  revert acc. induction s as [|c rest IH]; intros acc Hd Hacc; simpl.
  - lia.
  - simpl in Hd. apply andb_true_iff in Hd. destruct Hd as [Hc Hrest].
    destruct (isDigit_digit_of c Hc) as [_ Hrange].
    specialize (IH (acc * 10 + (Z.of_N (N_of_ascii c) - 48)) Hrest).
    lia.
Qed.

(** What the loop of [ParseUint] returns is the value of digits. *)
Lemma ParseUint_loop_sound (s : string) (acc n : Z) :
  strconv.ParseUint_loop s acc = inl n ->
  allDigits s = true /\ n = decimalFrom acc s.
Proof.
  revert acc. induction s as [|c rest IH]; intros acc; simpl.
  - intros H. inversion H. split; reflexivity.
  - destruct (strconv.digit_of c) as [d|] eqn:Hdig; [|discriminate].
    destruct (10 <=? d) eqn:Hten; [discriminate|].
    destruct (strconv.maxUint64 / 10 + 1 <=? acc); [discriminate|].
    destruct (strconv.maxUint64 <? acc * 10 + d); [discriminate|].
    intros H. apply IH in H. destruct H as [Hrest Hn].
    apply Z.leb_gt in Hten.
    destruct (digit_of_isDigit c d Hdig Hten) as [Hc ->].
    rewrite Hc, Hrest. split; [reflexivity|assumption].
Qed.

(** Digits whose value fits in 64 bits are read in full. *)
Lemma ParseUint_loop_complete (s : string) (acc : Z) :
  allDigits s = true -> 0 <= acc ->
  decimalFrom acc s <= strconv.maxUint64 ->
  strconv.ParseUint_loop s acc = inl (decimalFrom acc s).
Proof.
  revert acc. induction s as [|c rest IH]; intros acc Hd Hacc Hmax; simpl.
  - reflexivity.
  - simpl in Hd, Hmax. apply andb_true_iff in Hd. destruct Hd as [Hc Hrest].
    destruct (isDigit_digit_of c Hc) as [Hdig Hrange]. rewrite Hdig.
    pose proof (decimalFrom_ge rest (acc * 10 + (Z.of_N (N_of_ascii c) - 48))
                  Hrest ltac:(lia)) as Hge.
    change (strconv.maxUint64 / 10 + 1) with 1844674407370955162.
    change strconv.maxUint64 with 18446744073709551615 in *.
    replace (10 <=? Z.of_N (N_of_ascii c) - 48) with false by lia.
    replace (1844674407370955162 <=? acc) with false by lia.
    replace (18446744073709551615 <? acc * 10 + (Z.of_N (N_of_ascii c) - 48))
      with false by lia.
    apply IH; [assumption|lia|assumption].
Qed.

Lemma decimalValue_nonneg (s : string) :
  allDigits s = true -> 0 <= decimalValue s.
Proof. intros H. apply (decimalFrom_ge s 0 H). lia. Qed.

Lemma ParseUint_sound (s : string) (n : Z) :
  strconv.ParseUint s = inl n ->
  s <> EmptyString /\ allDigits s = true /\ n = decimalValue s.
Proof.
  destruct s as [|c rest]; [discriminate|].
  unfold strconv.ParseUint. intros H. apply ParseUint_loop_sound in H.
  destruct H as [Hd Hn]. repeat split; [discriminate|assumption|assumption].
Qed.

Lemma ParseUint_complete (s : string) :
  s <> EmptyString -> allDigits s = true ->
  decimalValue s <= strconv.maxUint64 ->
  strconv.ParseUint s = inl (decimalValue s).
Proof.
  intros Hne Hd Hmax. destruct s as [|c rest]; [contradiction|].
  unfold strconv.ParseUint. apply ParseUint_loop_complete; [assumption|lia|].
  exact Hmax.
Qed.

(** [ParseInt] gives a positive number exactly on an optional plus sign
    and digits whose value is positive and fits in a signed 64-bit
    integer. *)
Lemma ParseInt_positive_iff (s : string) (n : Z) :
  strconv.ParseInt s = inl n /\ 0 < n <->
  exists digits,
    positiveDecimal s digits /\ n = decimalValue digits /\
    0 < n <= Int64.max_int.
Proof.
  unfold positiveDecimal, Int64.max_int. split.
  - intros [Hparse Hpos]. destruct s as [|c rest]; [discriminate|].
    unfold strconv.ParseInt in Hparse.
    destruct (Ascii.eqb_spec c "+") as [->|Hplus].
    + simpl Ascii.eqb in Hparse. cbv iota in Hparse.
      destruct (strconv.ParseUint rest) as [un|[|]] eqn:Hun;
        try discriminate.
      apply ParseUint_sound in Hun. destruct Hun as (Hne & Hd & ->).
      simpl in Hparse.
      destruct (2 ^ 63 <=? decimalValue rest) eqn:Hcut; [discriminate|].
      inversion Hparse; subst n. apply Z.leb_gt in Hcut.
      exists rest. repeat split; auto; lia.
    + destruct (Ascii.eqb_spec c "-") as [->|Hminus].
      * destruct (strconv.ParseUint rest) as [un|[|]] eqn:Hun;
          try discriminate.
        apply ParseUint_sound in Hun. destruct Hun as (Hne & Hd & ->).
        pose proof (decimalValue_nonneg rest Hd).
        simpl in Hparse.
        destruct (2 ^ 63 <? decimalValue rest); [discriminate|].
        inversion Hparse. lia.
      * destruct (strconv.ParseUint (String c rest)) as [un|[|]] eqn:Hun;
          try discriminate.
        apply ParseUint_sound in Hun. destruct Hun as (Hne & Hd & ->).
        simpl in Hparse.
        destruct (2 ^ 63 <=? decimalValue (String c rest)) eqn:Hcut;
          [discriminate|].
        inversion Hparse; subst n. apply Z.leb_gt in Hcut.
        exists (String c rest). repeat split; auto; lia.
  - intros (digits & ([->| ->] & Hne & Hd) & -> & Hpos & Hmax).
    + destruct digits as [|c rest]; [contradiction|].
      assert (Hc : isDigit c = true).
      { simpl in Hd. apply andb_true_iff in Hd. tauto. }
      unfold strconv.ParseInt.
      destruct (Ascii.eqb_spec c "+") as [->|_]; [discriminate Hc|].
      destruct (Ascii.eqb_spec c "-") as [->|_]; [discriminate Hc|].
      rewrite ParseUint_complete;
        [|discriminate|assumption|unfold strconv.maxUint64; lia].
      simpl. replace (2 ^ 63 <=? decimalValue (String c rest)) with false
        by lia.
      split; [reflexivity|assumption].
    + unfold strconv.ParseInt. simpl Ascii.eqb. cbv iota.
      rewrite ParseUint_complete;
        [|assumption|assumption|unfold strconv.maxUint64; lia].
      simpl. replace (2 ^ 63 <=? decimalValue digits) with false by lia.
      split; [reflexivity|assumption].
Qed.

(** ** The steps, by what they read *)

Lemma openFile_result (path : string) (w : os.State) :
  fst (openFile path w) =
  if nonempty path then
    match os.open_error w path with
    | Some text => Some (LibError text)
    | None => None
    end
  else None.
Proof.
  unfold openFile, os.Open. destruct (nonempty path); [|reflexivity].
  destruct (os.open_error w path); reflexivity.
Qed.

Lemma openFile_passes_iff (path : string) (w : os.State) :
  fst (openFile path w) = None <->
  (path <> EmptyString -> os.open_error w path = None).
Proof.
  rewrite openFile_result. destruct (nonempty path) eqn:Hn.
  - apply nonempty_true in Hn.
    destruct (os.open_error w path); split; intros H.
    + discriminate.
    + specialize (H Hn). discriminate.
    + reflexivity.
    + reflexivity.
  - apply nonempty_false in Hn. split; [|reflexivity].
    intros _ Hne. contradiction.
Qed.

(** The pieces of a string that ends in the separator end in the empty
    piece. *)
Lemma Split_trailing (s : string) (sep : ascii) :
  exists pieces,
    pieces <> [] /\
    strings.Split (s ++ String sep EmptyString)%string sep
    = (pieces ++ [EmptyString])%list.
Proof.
  induction s as [|c rest IH]; simpl.
  - rewrite Ascii.eqb_refl. exists [EmptyString]. split; [discriminate|].
    reflexivity.
  - destruct IH as (pieces & Hne & ->).
    destruct (Ascii.eqb c sep).
    + exists (EmptyString :: pieces). split; [discriminate|reflexivity].
    + destruct pieces as [|p ps]; [contradiction|].
      exists (String c p :: ps). split; [discriminate|reflexivity].
Qed.

Section Coverage.

Variable ServerDetails : Type.
Variable UrlMetricsFetcher : Type.
Variable GetConfig : string -> bool -> ServerDetails + error.
Variable NewArtifactoryMetricsFetcher :
  ServerDetails -> UrlMetricsFetcher + error.
Variable NewUrlMetricsFetcher : string -> string -> string -> UrlMetricsFetcher.
Variable syntax_Parse : string -> regexp.syntax + error.

Local Abbreviation parse :=
  (parseCommonConfig ServerDetails UrlMetricsFetcher GetConfig
     NewArtifactoryMetricsFetcher NewUrlMetricsFetcher syntax_Parse).
Local Abbreviation fetcherOf :=
  (artifactoryFetcher ServerDetails UrlMetricsFetcher GetConfig
     NewArtifactoryMetricsFetcher).
Local Abbreviation filterOf := (compileFilter syntax_Parse).
Local Abbreviation urlOf := (urlFetcher UrlMetricsFetcher NewUrlMetricsFetcher).
Local Abbreviation ok_inv :=
  (parseCommonConfig_ok_inv ServerDetails UrlMetricsFetcher GetConfig
     NewArtifactoryMetricsFetcher NewUrlMetricsFetcher syntax_Parse).
Local Abbreviation ok_intro :=
  (parseCommonConfig_ok_intro ServerDetails UrlMetricsFetcher GetConfig
     NewArtifactoryMetricsFetcher NewUrlMetricsFetcher syntax_Parse).
Local Abbreviation steps :=
  (parseCommonConfig_steps ServerDetails UrlMetricsFetcher GetConfig
     NewArtifactoryMetricsFetcher NewUrlMetricsFetcher syntax_Parse).
Local Abbreviation total :=
  (parseCommonConfig_total ServerDetails UrlMetricsFetcher GetConfig
     NewArtifactoryMetricsFetcher NewUrlMetricsFetcher syntax_Parse).

(** The result of the call, the state left aside. *)
Lemma parseCommonConfig_result (c : Context) (w : os.State) :
  fst (parse c w) =
  if (countInputFlags c =? 0)
     && String.eqb (os.Getenv w "MOCK_METRICS_DATA") EmptyString
  then (None, Some errMissingSource)
  else if 1 <? countInputFlags c
  then (None, Some errConflictingSources)
  else
    match fst (openFile (GetStringFlagValue c "file") w) with
    | Some err =>
        (None, Some (Errorf "could not open file %s: %w"
                       [ArgString (GetStringFlagValue c "file"); ArgErr err]))
    | None =>
        match fetcherOf c with
        | inr err => (None, Some err)
        | inl fetcher =>
            match strconv.ParseInt (GetStringFlagValue c "interval") with
            | inr err =>
                (None, Some (Errorf "failed to parse interval value: %s; cause: %w"
                               [ArgString (GetStringFlagValue c "interval");
                                ArgErr (NumError err)]))
            | inl intValue =>
                if intValue <=? 0 then
                  (None, Some (Errorf "interval value must be positive; got: %d"
                                 [ArgInt intValue]))
                else
                  match filterOf (GetStringFlagValue c "filter") with
                  | inr err => (None, Some (errInvalidFilter err))
                  | inl re =>
                      (Some (mkConf UrlMetricsFetcher
                               (GetStringFlagValue c "file")
                               (urlOf c fetcher)
                               (Int64.mul intValue time.Second)
                               re
                               (ignoreLabels
                                  (GetStringFlagValue c "aggregate-ignore-labels"))),
                       None)
                  end
            end
        end
    end.
Proof.
  rewrite steps.
  destruct ((countInputFlags c =? 0) && _); [reflexivity|].
  destruct (1 <? countInputFlags c); [reflexivity|].
  destruct (openFile _ w) as [[err|] w1]; [reflexivity|]. simpl fst at 2.
  destruct (fetcherOf c); [|reflexivity].
  destruct (strconv.ParseInt _); [|reflexivity].
  destruct (_ <=? 0); [reflexivity|].
  destruct (filterOf _); reflexivity.
Qed.

(** The Artifactory step passes when Artifactory is not asked for, or
    when the server is configured and its fetcher can be built. *)
Lemma artifactoryFetcher_passes (c : Context)
  (fetcher : option UrlMetricsFetcher) :
  fetcherOf c = inl fetcher <->
  (GetBoolFlagValue c "artifactory" = false /\ fetcher = None) \/
  (GetBoolFlagValue c "artifactory" = true /\
   exists d f,
     GetConfig (GetStringFlagValue c "server") false = inl d /\
     NewArtifactoryMetricsFetcher d = inl f /\ fetcher = Some f).
Proof.
  unfold artifactoryFetcher.
  destruct (GetBoolFlagValue c "artifactory").
  - destruct (GetConfig (GetStringFlagValue c "server") false) as [d|e].
    + destruct (NewArtifactoryMetricsFetcher d) as [f|e] eqn:Hnew; split.
      * intros H. inversion H. right. split; [reflexivity|].
        exists d, f. repeat split; assumption.
      * intros [[H _]|(_ & d' & f' & Hd & Hf & ->)]; [discriminate|].
        inversion Hd; subst d'. rewrite Hnew in Hf. inversion Hf.
        reflexivity.
      * discriminate.
      * intros [[H _]|(_ & d' & f' & Hd & Hf & ->)]; [discriminate|].
        inversion Hd; subst d'. rewrite Hnew in Hf. discriminate.
    + split; [discriminate|].
      intros [[H _]|(_ & d' & f' & Hd & _)]; discriminate.
  - split.
    + intros H. inversion H. left. split; reflexivity.
    + intros [[_ ->]|[H _]]; [reflexivity|discriminate].
Qed.

Lemma compileFilter_passes (flagValue : string)
  (re : option regexp.Regexp) :
  filterOf flagValue = inl re <->
  (flagValue = EmptyString /\ re = Some regexp.MustCompile_dot_star) \/
  (flagValue <> EmptyString /\
   exists r, Compile syntax_Parse flagValue = inl r /\ re = Some r).
Proof.
  unfold compileFilter. destruct (nonempty flagValue) eqn:Hn.
  - apply nonempty_true in Hn.
    destruct (Compile syntax_Parse flagValue) as [r|e]; split.
    + intros H. inversion H. right. split; [assumption|].
      exists r. split; reflexivity.
    + intros [[H _]|(_ & r' & Hr & ->)]; [contradiction|].
      inversion Hr. reflexivity.
    + discriminate.
    + intros [[H _]|(_ & r' & Hr & _)]; [contradiction|discriminate].
  - apply nonempty_false in Hn. split.
    + intros H. inversion H. left. split; [assumption|reflexivity].
    + intros [[_ ->]|[H _]]; [reflexivity|contradiction].
Qed.

(** Property X1.  The call succeeds exactly when each of its checks
    passes: one source is selected, or none while MOCK_METRICS_DATA is
    set; the file, if one is given, can be opened; the Artifactory
    server, if Artifactory is asked for, is configured and its fetcher
    can be built; the interval parses as a positive integer; and the
    filter, if one is given, compiles. *)
Theorem resolution_succeeds_iff (c : Context) (w : os.State) :
  succeeds (fst (parse c w)) <->
  (countInputFlags c = 1 \/
   (countInputFlags c = 0 /\
    os.Getenv w "MOCK_METRICS_DATA" <> EmptyString)) /\
  (GetStringFlagValue c "file" <> EmptyString ->
   os.open_error w (GetStringFlagValue c "file") = None) /\
  (GetBoolFlagValue c "artifactory" = true ->
   exists d f,
     GetConfig (GetStringFlagValue c "server") false = inl d /\
     NewArtifactoryMetricsFetcher d = inl f) /\
  (exists intValue,
     strconv.ParseInt (GetStringFlagValue c "interval") = inl intValue /\
     0 < intValue) /\
  (GetStringFlagValue c "filter" <> EmptyString ->
   exists re,
     Compile syntax_Parse (GetStringFlagValue c "filter") = inl re).
Proof.
  split.
  - intros [conf Hok]. apply ok_inv in Hok.
    destruct Hok as (Hcount & Hopen & fetcher & n & re & Hf & Hi & Hpos
                     & Hfilter & _).
    split; [assumption|]. split; [now apply openFile_passes_iff|].
    split; [|split].
    + intros Hart. apply artifactoryFetcher_passes in Hf.
      destruct Hf as [[Hno _]|(_ & d & f & Hd & Hnew & _)]; [congruence|].
      exists d, f. split; assumption.
    + exists n. split; assumption.
    + intros Hne. apply compileFilter_passes in Hfilter.
      destruct Hfilter as [[He _]|(_ & r & Hr & _)]; [contradiction|].
      exists r. assumption.
  - intros (Hcount & Hopen & Hart & (n & Hi & Hpos) & Hfilter).
    apply openFile_passes_iff in Hopen.
    assert (Hf : exists fetcher, fetcherOf c = inl fetcher).
    { destruct (GetBoolFlagValue c "artifactory") eqn:Ha.
      - destruct (Hart eq_refl) as (d & f & Hd & Hnew). exists (Some f).
        apply artifactoryFetcher_passes. right. split; [assumption|].
        exists d, f. repeat split; assumption.
      - exists None. apply artifactoryFetcher_passes. left.
        split; [assumption|reflexivity]. }
    assert (Hre : exists re, filterOf (GetStringFlagValue c "filter") = inl re).
    { destruct (String.eqb_spec (GetStringFlagValue c "filter") EmptyString)
        as [He|Hne].
      - exists (Some regexp.MustCompile_dot_star).
        apply compileFilter_passes. left. split; [assumption|reflexivity].
      - destruct (Hfilter Hne) as [r Hr]. exists (Some r).
        apply compileFilter_passes. right. split; [assumption|].
        exists r. split; [assumption|reflexivity]. }
    destruct Hf as [fetcher Hf]. destruct Hre as [re Hre].
    eexists. rewrite (ok_intro c w fetcher n re); try assumption.
    reflexivity.
Qed.

(** Property X2.  A configuration that is returned never carries two
    sources: with a file path it has no fetcher; and it carries no source
    at all only when no source flag was given, on the path that
    MOCK_METRICS_DATA opens. *)
Theorem resolved_source_is_exclusive (c : Context) (w : os.State)
  (conf : commonConfiguration UrlMetricsFetcher) :
  fst (parse c w) = (Some conf, None) ->
  (File conf <> EmptyString -> UrlMetricsFetcher_ conf = None) /\
  (UrlMetricsFetcher_ conf <> None -> File conf = EmptyString) /\
  (File conf = EmptyString /\ UrlMetricsFetcher_ conf = None <->
   countInputFlags c = 0) /\
  (countInputFlags c = 0 ->
   os.Getenv w "MOCK_METRICS_DATA" <> EmptyString).
Proof.
  intros Hok. apply ok_inv in Hok.
  destruct Hok as (Hcount & _ & fetcher & n & re & Hf & _ & _ & _ & ->).
  apply artifactoryFetcher_passes in Hf.
  unfold File, UrlMetricsFetcher_, urlFetcher, countInputFlags in *. simpl.
  destruct (nonempty (GetStringFlagValue c "file")) eqn:Hfile;
    destruct (nonempty (GetStringFlagValue c "url")) eqn:Hurl;
    destruct (GetBoolFlagValue c "artifactory") eqn:Hart;
    try (exfalso; lia);
    try apply nonempty_true in Hfile; try apply nonempty_false in Hfile;
    destruct Hf as [[Hno ->]|(Hyes & d & f & _ & _ & ->)];
    try discriminate;
    repeat split; intros; try congruence; try lia;
    try (destruct Hcount as [?|[_ ?]]; [lia|assumption]).
  all: match goal with H : _ /\ _ |- _ => destruct H; congruence end.
Qed.

(** Property X3.  With a URL given, the returned configuration holds the
    fetcher built from the url, user and password flags, and no file;
    Artifactory is then not asked for. *)
Theorem url_fetcher_resolved (c : Context) (w : os.State)
  (conf : commonConfiguration UrlMetricsFetcher) :
  fst (parse c w) = (Some conf, None) ->
  GetStringFlagValue c "url" <> EmptyString ->
  UrlMetricsFetcher_ conf
  = Some (NewUrlMetricsFetcher (GetStringFlagValue c "url")
            (GetStringFlagValue c "user") (GetStringFlagValue c "password")) /\
  File conf = EmptyString /\
  GetBoolFlagValue c "artifactory" = false.
Proof.
  intros Hok Hurl. apply ok_inv in Hok.
  destruct Hok as (Hcount & _ & fetcher & n & re & _ & _ & _ & _ & ->).
  apply nonempty_true in Hurl.
  unfold File, UrlMetricsFetcher_, urlFetcher, countInputFlags in *. simpl.
  rewrite Hurl in *.
  destruct (nonempty (GetStringFlagValue c "file")) eqn:Hfile;
    destruct (GetBoolFlagValue c "artifactory") eqn:Hart;
    try (exfalso; lia).
  apply nonempty_false in Hfile. repeat split; assumption.
Qed.

(** Property X4.  With Artifactory asked for, the returned configuration
    holds the fetcher built from the details of the server named by the
    server flag, looked up with [GetConfig(serverId, false)], and no
    file; no URL is then given. *)
Theorem artifactory_fetcher_resolved (c : Context) (w : os.State)
  (conf : commonConfiguration UrlMetricsFetcher) :
  fst (parse c w) = (Some conf, None) ->
  GetBoolFlagValue c "artifactory" = true ->
  (exists d f,
     GetConfig (GetStringFlagValue c "server") false = inl d /\
     NewArtifactoryMetricsFetcher d = inl f /\
     UrlMetricsFetcher_ conf = Some f) /\
  File conf = EmptyString /\
  GetStringFlagValue c "url" = EmptyString.
Proof.
  intros Hok Hart. apply ok_inv in Hok.
  destruct Hok as (Hcount & _ & fetcher & n & re & Hf & _ & _ & _ & ->).
  apply artifactoryFetcher_passes in Hf.
  destruct Hf as [[Hno _]|(_ & d & f & Hd & Hnew & ->)]; [congruence|].
  unfold File, UrlMetricsFetcher_, urlFetcher, countInputFlags in *. simpl.
  rewrite Hart in *.
  destruct (nonempty (GetStringFlagValue c "file")) eqn:Hfile;
    destruct (nonempty (GetStringFlagValue c "url")) eqn:Hurl;
    try (exfalso; lia).
  apply nonempty_false in Hfile, Hurl. split; [|split; assumption].
  exists d, f. repeat split; assumption.
Qed.

(** Property X5.  With Artifactory the one source selected, a server
    configuration that cannot be loaded, or a fetcher that cannot be
    built, is reported with its cause, whatever the interval and the
    filter: the message names the server, or the current server when the
    server flag is empty. *)
Theorem artifactory_failure_reported (c : Context) (w : os.State) :
  GetBoolFlagValue c "artifactory" = true ->
  countInputFlags c = 1 ->
  let serverId := GetStringFlagValue c "server" in
  (forall err,
     GetConfig serverId false = inr err ->
     fst (parse c w)
     = (None,
        Some (Errorf "%s; cause: %w"
                [ArgString
                   (if String.eqb serverId EmptyString
                    then "could not load configuration for current Artifactory server"
                    else "could not load configuration for Artifactory server "
                         ++ serverId);
                 ArgErr err]))) /\
  (forall d err,
     GetConfig serverId false = inl d ->
     NewArtifactoryMetricsFetcher d = inr err ->
     fst (parse c w)
     = (None,
        Some (Errorf "could not initiate metrics fetcher from Artifactory; cause: %w"
                [ArgErr err]))).
Proof.
  intros Hart Hone serverId.
  assert (Hfile : fst (openFile (GetStringFlagValue c "file") w) = None).
  { rewrite openFile_result. unfold countInputFlags in Hone.
    rewrite Hart in Hone.
    destruct (nonempty (GetStringFlagValue c "file"));
      destruct (nonempty (GetStringFlagValue c "url")); try lia.
    reflexivity. }
  split.
  - intros err Herr. rewrite parseCommonConfig_result, Hone, Hfile.
    unfold artifactoryFetcher. fold serverId. rewrite Hart, Herr.
    reflexivity.
  - intros d err Hd Herr. rewrite parseCommonConfig_result, Hone, Hfile.
    unfold artifactoryFetcher. fold serverId. rewrite Hart, Hd, Herr.
    reflexivity.
Qed.

(** Property X6.  When the source, the file and Artifactory pass, an
    interval flag that does not parse, or parses as zero or less, is
    reported by its own error, with the text of the flag or its value:
    the filter flag, valid or not, is not looked at before. *)
Theorem interval_failure_reported (c : Context) (w : os.State) :
  (countInputFlags c = 1 \/
   (countInputFlags c = 0 /\
    os.Getenv w "MOCK_METRICS_DATA" <> EmptyString)) ->
  (GetStringFlagValue c "file" <> EmptyString ->
   os.open_error w (GetStringFlagValue c "file") = None) ->
  (GetBoolFlagValue c "artifactory" = true ->
   exists d f,
     GetConfig (GetStringFlagValue c "server") false = inl d /\
     NewArtifactoryMetricsFetcher d = inl f) ->
  let flagValue := GetStringFlagValue c "interval" in
  (forall err,
     strconv.ParseInt flagValue = inr err ->
     fst (parse c w)
     = (None,
        Some (Errorf "failed to parse interval value: %s; cause: %w"
                [ArgString flagValue; ArgErr (NumError err)]))) /\
  (forall intValue,
     strconv.ParseInt flagValue = inl intValue ->
     intValue <= 0 ->
     fst (parse c w)
     = (None,
        Some (Errorf "interval value must be positive; got: %d"
                [ArgInt intValue]))).
Proof.
  intros Hcount Hopen Hart flagValue.
  apply openFile_passes_iff in Hopen.
  assert (Hf : exists fetcher, fetcherOf c = inl fetcher).
  { destruct (GetBoolFlagValue c "artifactory") eqn:Ha.
    - destruct (Hart eq_refl) as (d & f & Hd & Hnew). exists (Some f).
      apply artifactoryFetcher_passes. right. split; [assumption|].
      exists d, f. repeat split; assumption.
    - exists None. apply artifactoryFetcher_passes. left.
      split; [assumption|reflexivity]. }
  destruct Hf as [fetcher Hf].
  assert (Hhead :
    (countInputFlags c =? 0)
    && String.eqb (os.Getenv w "MOCK_METRICS_DATA") EmptyString = false /\
    (1 <? countInputFlags c) = false).
  { destruct Hcount as [Hone|[Hzero Henv]].
    - rewrite Hone. split; reflexivity.
    - rewrite Hzero.
      destruct (String.eqb_spec (os.Getenv w "MOCK_METRICS_DATA")
                  EmptyString); [contradiction|]. split; reflexivity. }
  destruct Hhead as [Hh1 Hh2].
  split.
  - intros err Herr.
    rewrite parseCommonConfig_result, Hh1, Hh2, Hopen, Hf.
    fold flagValue. rewrite Herr. reflexivity.
  - intros n Hn Hle.
    rewrite parseCommonConfig_result, Hh1, Hh2, Hopen, Hf.
    fold flagValue. rewrite Hn.
    replace (n <=? 0) with true by lia. reflexivity.
Qed.

(** Property X7.  Every error the call returns is built by [fmt.Errorf],
    with one of the eight formats of the function: an error of a library
    is never returned bare. *)
Theorem errors_carry_a_known_format (c : Context) (w : os.State)
  (err : error) :
  fst (parse c w) = (None, Some err) ->
  exists format args, err = Errorf format args /\ In format errorFormats.
Proof.
  rewrite parseCommonConfig_result. unfold errorFormats.
  destruct ((countInputFlags c =? 0) && _).
  { intros H. inversion H. eexists _, _. split; [reflexivity|].
    simpl. tauto. }
  destruct (1 <? countInputFlags c).
  { intros H. inversion H. eexists _, _. split; [reflexivity|].
    simpl. tauto. }
  destruct (fst (openFile _ w)).
  { intros H. inversion H. eexists _, _. split; [reflexivity|].
    simpl. tauto. }
  unfold artifactoryFetcher.
  destruct (GetBoolFlagValue c "artifactory").
  - destruct (GetConfig _ false) as [d|e].
    + destruct (NewArtifactoryMetricsFetcher d).
      * destruct (strconv.ParseInt _) as [n|].
        -- destruct (n <=? 0).
           ++ intros H. inversion H. eexists _, _. split; [reflexivity|].
              simpl. tauto.
           ++ destruct (filterOf _); intros H; inversion H.
              eexists _, _. split; [reflexivity|]. simpl. tauto.
        -- intros H. inversion H. eexists _, _. split; [reflexivity|].
           simpl. tauto.
      * intros H. inversion H. eexists _, _. split; [reflexivity|].
        simpl. tauto.
    + intros H. inversion H. eexists _, _. split; [reflexivity|].
      simpl. tauto.
  - destruct (strconv.ParseInt _) as [n|].
    + destruct (n <=? 0).
      * intros H. inversion H. eexists _, _. split; [reflexivity|].
        simpl. tauto.
      * destruct (filterOf _); intros H; inversion H.
        eexists _, _. split; [reflexivity|]. simpl. tauto.
    + intros H. inversion H. eexists _, _. split; [reflexivity|].
      simpl. tauto.
Qed.

(** *** What the call depends on *)

(** The error of the call depends on the flags and the system only by
    what the checks read; the labels to ignore play no part in it. *)
Lemma parseCommonConfig_error_congr (c c' : Context) (w w' : os.State) :
  GetStringFlagValue c "file" = GetStringFlagValue c' "file" ->
  GetStringFlagValue c "url" = GetStringFlagValue c' "url" ->
  GetBoolFlagValue c "artifactory" = GetBoolFlagValue c' "artifactory" ->
  GetStringFlagValue c "interval" = GetStringFlagValue c' "interval" ->
  GetStringFlagValue c "filter" = GetStringFlagValue c' "filter" ->
  (GetBoolFlagValue c "artifactory" = true ->
   GetStringFlagValue c "server" = GetStringFlagValue c' "server") ->
  (countInputFlags c = 0 ->
   (os.Getenv w "MOCK_METRICS_DATA" = EmptyString <->
    os.Getenv w' "MOCK_METRICS_DATA" = EmptyString)) ->
  (GetStringFlagValue c "file" <> EmptyString ->
   os.open_error w (GetStringFlagValue c "file")
   = os.open_error w' (GetStringFlagValue c "file")) ->
  snd (fst (parse c w)) = snd (fst (parse c' w')) /\
  (forall conf,
     fst (parse c w) = (Some conf, None) ->
     exists fetcher,
       fetcherOf c = inl fetcher /\
       fst (parse c' w')
       = (Some (mkConf UrlMetricsFetcher (file conf)
                  (urlOf c' fetcher) (interval conf) (filter conf)
                  (ignoreLabels
                     (GetStringFlagValue c' "aggregate-ignore-labels"))),
          None)).
Proof.
  intros Hfile Hurl Hart Hint Hfilter Hserver Henv Hopen.
  assert (Hcount : countInputFlags c' = countInputFlags c)
    by (unfold countInputFlags; now rewrite Hfile, Hurl, Hart).
  assert (Hof : fst (openFile (GetStringFlagValue c "file") w')
                = fst (openFile (GetStringFlagValue c "file") w)).
  { rewrite !openFile_result.
    destruct (nonempty (GetStringFlagValue c "file")) eqn:Hn;
      [|reflexivity].
    apply nonempty_true in Hn. now rewrite (Hopen Hn). }
  assert (Hfetch : fetcherOf c' = fetcherOf c).
  { unfold artifactoryFetcher. rewrite <- Hart.
    destruct (GetBoolFlagValue c "artifactory"); [|reflexivity].
    now rewrite (Hserver eq_refl). }
  rewrite !parseCommonConfig_result, Hcount, <- Hfile, Hof, Hfetch, <- Hint,
    <- Hfilter.
  destruct (Z.eqb_spec (countInputFlags c) 0) as [Hzero|Hzero].
  - specialize (Henv Hzero).
    destruct (String.eqb_spec (os.Getenv w "MOCK_METRICS_DATA") EmptyString)
      as [He|He];
      destruct (String.eqb_spec (os.Getenv w' "MOCK_METRICS_DATA")
                  EmptyString) as [He'|He']; try tauto; simpl andb; cbv iota.
    + split; [reflexivity|]. intros conf H. discriminate.
    + destruct (1 <? countInputFlags c);
        [split; [reflexivity|intros conf H; discriminate]|].
      destruct (fst (openFile _ w));
        [split; [reflexivity|intros conf H; discriminate]|].
      destruct (fetcherOf c) as [fetcher|];
        [|split; [reflexivity|intros conf H; discriminate]].
      destruct (strconv.ParseInt _) as [n|];
        [|split; [reflexivity|intros conf H; discriminate]].
      destruct (n <=? 0);
        [split; [reflexivity|intros conf H; discriminate]|].
      destruct (filterOf _) as [re|];
        [|split; [reflexivity|intros conf H; discriminate]].
      split; [reflexivity|]. intros conf H. inversion H; subst conf.
      exists fetcher. simpl. split; reflexivity.
  - simpl andb. cbv iota.
    destruct (1 <? countInputFlags c);
      [split; [reflexivity|intros conf H; discriminate]|].
    destruct (fst (openFile _ w));
      [split; [reflexivity|intros conf H; discriminate]|].
    destruct (fetcherOf c) as [fetcher|];
      [|split; [reflexivity|intros conf H; discriminate]].
    destruct (strconv.ParseInt _) as [n|];
      [|split; [reflexivity|intros conf H; discriminate]].
    destruct (n <=? 0);
      [split; [reflexivity|intros conf H; discriminate]|].
    destruct (filterOf _) as [re|];
      [|split; [reflexivity|intros conf H; discriminate]].
    split; [reflexivity|]. intros conf H. inversion H; subst conf.
    exists fetcher. simpl. split; reflexivity.
Qed.

(** The whole result is the same when, in addition, the labels to ignore
    are the same, and the credentials when a URL is given. *)
Lemma parseCommonConfig_congr (c c' : Context) (w w' : os.State) :
  GetStringFlagValue c "file" = GetStringFlagValue c' "file" ->
  GetStringFlagValue c "url" = GetStringFlagValue c' "url" ->
  GetBoolFlagValue c "artifactory" = GetBoolFlagValue c' "artifactory" ->
  GetStringFlagValue c "interval" = GetStringFlagValue c' "interval" ->
  GetStringFlagValue c "filter" = GetStringFlagValue c' "filter" ->
  GetStringFlagValue c "aggregate-ignore-labels"
  = GetStringFlagValue c' "aggregate-ignore-labels" ->
  (GetStringFlagValue c "url" <> EmptyString ->
   GetStringFlagValue c "user" = GetStringFlagValue c' "user" /\
   GetStringFlagValue c "password" = GetStringFlagValue c' "password") ->
  (GetBoolFlagValue c "artifactory" = true ->
   GetStringFlagValue c "server" = GetStringFlagValue c' "server") ->
  (countInputFlags c = 0 ->
   (os.Getenv w "MOCK_METRICS_DATA" = EmptyString <->
    os.Getenv w' "MOCK_METRICS_DATA" = EmptyString)) ->
  (GetStringFlagValue c "file" <> EmptyString ->
   os.open_error w (GetStringFlagValue c "file")
   = os.open_error w' (GetStringFlagValue c "file")) ->
  fst (parse c w) = fst (parse c' w').
Proof.
  intros Hfile Hurl Hart Hint Hfilter Hagg Hcred Hserver Henv Hopen.
  destruct (parseCommonConfig_error_congr c c' w w' Hfile Hurl Hart Hint
              Hfilter Hserver Henv Hopen) as [Herr Hconf].
  destruct (total c w) as [[conf Hok]|[err Hfail]].
  - destruct (Hconf conf Hok) as (fetcher & Hf & ->). rewrite Hok.
    pose proof Hok as Hinv. apply ok_inv in Hinv.
    destruct Hinv as (_ & _ & fetcher' & n & re & Hf' & _ & _ & _ & ->).
    assert (fetcher' = fetcher) by congruence. subst fetcher'. simpl.
    rewrite <- Hagg. do 2 f_equal. f_equal. unfold urlFetcher.
    rewrite <- Hurl.
    destruct (nonempty (GetStringFlagValue c "url")) eqn:Hn; [|reflexivity].
    apply nonempty_true in Hn. destruct (Hcred Hn) as [-> ->]. reflexivity.
  - rewrite Hfail in Herr. simpl in Herr.
    destruct (total c' w') as [[conf' Hok']|[err' Hfail']].
    + rewrite Hok' in Herr. discriminate.
    + rewrite Hfail' in Herr. simpl in Herr. congruence.
Qed.

(** Property X8.  The call reads the flags that [getCommonFlags] lists,
    each by its kind, and no other: two contexts that give these nine
    flags the same values resolve alike. *)
Theorem only_the_common_flags_are_read (c c' : Context) (w : os.State) :
  Forall (sameFlag c c') getCommonFlags ->
  parse c w = parse c' w.
Proof.
  unfold getCommonFlags. intros H.
  repeat match goal with
         | H : Forall _ (_ :: _) |- _ =>
             let H1 := fresh "Hflag" in
             apply Forall_cons_1 in H; destruct H as [H1 H]; simpl in H1
         end.
  assert (Hfst : fst (parse c w) = fst (parse c' w)).
  { apply parseCommonConfig_congr; try assumption; try tauto. }
  pose proof (parseCommonConfig_state ServerDetails UrlMetricsFetcher
                GetConfig NewArtifactoryMetricsFetcher NewUrlMetricsFetcher
                syntax_Parse c w) as Hs.
  pose proof (parseCommonConfig_state ServerDetails UrlMetricsFetcher
                GetConfig NewArtifactoryMetricsFetcher NewUrlMetricsFetcher
                syntax_Parse c' w) as Hs'.
  destruct (parse c w) as [r1 w1]. destruct (parse c' w) as [r2 w2].
  simpl in *. congruence.
Qed.

(** Property X9.  The user and password flags matter only beside a URL:
    with the url flag empty, whatever they are set to, the call returns
    the same. *)
Theorem credentials_matter_only_with_url (c : Context) (w : os.State)
  (username password : string) :
  GetStringFlagValue c "url" = EmptyString ->
  fst (parse (setStringFlag (setStringFlag c "user" username)
                "password" password) w)
  = fst (parse c w).
Proof.
  intros Hurl. symmetry. apply parseCommonConfig_congr;
    rewrite ?GetStringFlagValue_set_ne by discriminate;
    try reflexivity; try tauto.
Qed.

(** Property X10.  The server flag matters only when Artifactory is asked
    for: without it, whatever the server flag is set to, the call
    returns the same. *)
Theorem server_matters_only_with_artifactory (c : Context) (w : os.State)
  (serverId : string) :
  GetBoolFlagValue c "artifactory" = false ->
  fst (parse (setStringFlag c "server" serverId) w) = fst (parse c w).
Proof.
  intros Hart. symmetry. apply parseCommonConfig_congr;
    rewrite ?GetStringFlagValue_set_ne by discriminate;
    try reflexivity; try tauto.
  rewrite Hart. discriminate.
Qed.

(** Property X11.  With a file or a URL selected and Artifactory not
    asked for, the environment plays no part: the call returns the same
    under any two states of the system in which the file opens alike,
    whatever MOCK_METRICS_DATA holds.  (With Artifactory the server is
    looked up in the configuration of the machine, which the two states
    need not share.) *)
Theorem environment_matters_only_without_source (c : Context)
  (w w' : os.State) :
  countInputFlags c <> 0 ->
  GetBoolFlagValue c "artifactory" = false ->
  os.open_error w (GetStringFlagValue c "file")
  = os.open_error w' (GetStringFlagValue c "file") ->
  fst (parse c w) = fst (parse c w').
Proof.
  intros Hcount Hart Hopen. apply parseCommonConfig_congr;
    try reflexivity; try tauto.
Qed.

(** Property X12.  No value of the aggregate-ignore-labels flag is ever
    refused: setting it changes neither whether the call succeeds nor
    the error it returns, and on success only the set of labels of the
    configuration. *)
Theorem ignore_labels_are_never_refused (c : Context) (w : os.State)
  (flagValue : string) :
  let c' := setStringFlag c "aggregate-ignore-labels" flagValue in
  snd (fst (parse c' w)) = snd (fst (parse c w)) /\
  (forall conf,
     fst (parse c w) = (Some conf, None) ->
     fst (parse c' w)
     = (Some (mkConf UrlMetricsFetcher (file conf) (urlMetricsFetcher conf)
                (interval conf) (filter conf) (ignoreLabels flagValue)),
        None)).
Proof.
  intros c'.
  assert (Hne : forall k,
             k <> "aggregate-ignore-labels" ->
             GetStringFlagValue c k = GetStringFlagValue c' k).
  { intros k Hk. unfold c'. rewrite GetStringFlagValue_set_ne; [reflexivity|].
    congruence. }
  destruct (parseCommonConfig_error_congr c c' w w) as [Herr Hconf];
    try (apply Hne; discriminate); try reflexivity; try tauto.
  { intros _. apply Hne. discriminate. }
  split; [now symmetry|].
  intros conf Hok. destruct (Hconf conf Hok) as (fetcher & Hf & ->).
  apply ok_inv in Hok.
  destruct Hok as (_ & _ & fetcher' & n & re & Hf' & _ & _ & _ & ->).
  assert (fetcher' = fetcher) by congruence. subst fetcher'. simpl.
  unfold c' at 2. rewrite GetStringFlagValue_set_eq.
  do 3 f_equal. unfold urlFetcher.
  rewrite <- !Hne by discriminate. reflexivity.
Qed.

(** Property X13.  The resolved interval is the interval flag in seconds
    exactly when the flag is at most 9223372036: up to there it is that
    many seconds, one second at least; above, the product does not fit
    in the 64 bits of a duration and the interval is another number. *)
Theorem interval_exact_iff (c : Context) (w : os.State)
  (conf : commonConfiguration UrlMetricsFetcher) (intValue : Z) :
  fst (parse c w) = (Some conf, None) ->
  strconv.ParseInt (GetStringFlagValue c "interval") = inl intValue ->
  (Interval conf = intValue * time.Second <-> intValue <= 9223372036) /\
  (intValue <= 9223372036 ->
   time.Second <= Interval conf <= 9223372036 * time.Second).
Proof.
  intros Hok Hint. apply ok_inv in Hok.
  destruct Hok as (_ & _ & fetcher & n & re & _ & Hint' & Hpos & _ & ->).
  assert (n = intValue) by congruence. subst n.
  unfold Interval. simpl. split.
  - split.
    + intros Heq. destruct (Z_le_gt_dec intValue 9223372036) as [|Hbig];
        [assumption|].
      exfalso. apply (interval_overflow intValue); [lia|assumption].
    + intros Hle. apply Int64_mul_exact.
      unfold Int64.in_range, Int64.min_int, Int64.max_int, time.Second. lia.
  - intros Hle. rewrite Int64_mul_exact.
    + unfold time.Second. lia.
    + unfold Int64.in_range, Int64.min_int, Int64.max_int, time.Second. lia.
Qed.

(** Property X14.  The interval flag is accepted in one notation only:
    decimal digits, with a plus sign before them or none, whose value is
    positive and at most 9223372036854775807.  A configuration is
    returned only for such a flag, its interval the value times a second
    on 64 bits; and the interval is refused exactly for every other
    text: a unit, a fraction, a space, a minus sign, a larger number. *)
Theorem interval_flag_notation (c : Context) (w : os.State) :
  let flagValue := GetStringFlagValue c "interval" in
  (forall conf,
     fst (parse c w) = (Some conf, None) ->
     exists digits,
       positiveDecimal flagValue digits /\
       0 < decimalValue digits <= Int64.max_int /\
       Interval conf = Int64.mul (decimalValue digits) time.Second) /\
  (badInterval flagValue <->
   ~ exists digits,
       positiveDecimal flagValue digits /\
       0 < decimalValue digits <= Int64.max_int).
Proof.
  intros flagValue. split.
  - intros conf Hok. apply ok_inv in Hok.
    destruct Hok as (_ & _ & fetcher & n & re & _ & Hint & Hpos & _ & ->).
    destruct (proj1 (ParseInt_positive_iff flagValue n) (conj Hint Hpos))
      as (digits & Hnot & -> & Hrange).
    exists digits. split; [exact Hnot|]. split; [exact Hrange|reflexivity].
  - unfold badInterval. split.
    + intros Hbad (digits & Hnot & Hrange).
      destruct (proj2 (ParseInt_positive_iff flagValue (decimalValue digits)))
        as [Hparse Hpos].
      { exists digits. split; [exact Hnot|]. split; [reflexivity|].
        exact Hrange. }
      rewrite Hparse in Hbad. lia.
    + intros Hnone. destruct (strconv.ParseInt flagValue) as [n|] eqn:Hparse;
        [|exact I].
      destruct (Z_le_gt_dec n 0) as [|Hpos]; [assumption|].
      exfalso. apply Hnone.
      destruct (proj1 (ParseInt_positive_iff flagValue n))
        as (digits & Hnot & -> & Hrange); [split; [assumption|lia]|].
      exists digits. split; assumption.
Qed.

(** Property X15.  The set of labels to ignore is empty exactly when the
    flag is empty; the pieces of the flag are taken as they are, so a
    comma at the start or at the end of the flag puts the empty name into
    the set. *)
Theorem ignore_labels_edge_cases (c : Context) (w : os.State)
  (conf : commonConfiguration UrlMetricsFetcher) :
  fst (parse c w) = (Some conf, None) ->
  let flagValue := GetStringFlagValue c "aggregate-ignore-labels" in
  (AggregateIgnoreLabels conf = ∅ <-> flagValue = EmptyString) /\
  (forall rest,
     flagValue = String "," rest ->
     EmptyString ∈ AggregateIgnoreLabels conf) /\
  (forall rest,
     flagValue = (rest ++ ",")%string ->
     EmptyString ∈ AggregateIgnoreLabels conf).
Proof.
  intros Hok flagValue. apply ok_inv in Hok.
  destruct Hok as (_ & _ & fetcher & n & re & _ & _ & _ & _ & ->).
  unfold AggregateIgnoreLabels. simpl. fold flagValue. unfold ignoreLabels.
  split; [|split].
  - destruct (nonempty flagValue) eqn:Hn.
    + apply nonempty_true in Hn. split; [|contradiction].
      intros Hempty. exfalso.
      pose proof (Split_nonnil flagValue ",") as Hnil.
      destruct (strings.Split flagValue ",") as [|piece pieces] eqn:Hs;
        [contradiction|].
      assert (Hin : piece ∈ provider.Add ∅ (piece :: pieces)).
      { apply Add_elem_of. right. apply elem_of_cons. left. reflexivity. }
      rewrite Hempty in Hin. exact (proj1 (elem_of_empty piece) Hin).
    + apply nonempty_false in Hn. split; [intros _; assumption|reflexivity].
  - intros rest Hflag. rewrite Hflag.
    change (nonempty (String "," rest)) with true. cbv iota.
    change (strings.Split (String "," rest) ",")
      with (EmptyString :: strings.Split rest ",").
    apply Add_elem_of. right. apply elem_of_cons. left. reflexivity.
  - intros rest Hflag. rewrite Hflag.
    assert (Hn : nonempty (rest ++ ",") = true).
    { apply nonempty_true. destruct rest; discriminate. }
    rewrite Hn. destruct (Split_trailing rest ",") as (pieces & _ & ->).
    apply Add_elem_of. right. apply elem_of_app. right.
    apply elem_of_cons. left. reflexivity.
Qed.

(** Property X16.  [String()] does not panic on a configuration the call
    returns: it formats the file path, the fetcher, the interval and the
    source text of the filter, which is the filter flag as given, or
    [.*] when the flag is empty. *)
Theorem String_of_resolved (c : Context) (w : os.State)
  (conf : commonConfiguration UrlMetricsFetcher) :
  fst (parse c w) = (Some conf, None) ->
  String_ conf
  = Some (GetStringFlagValue c "file", UrlMetricsFetcher_ conf,
          Interval conf,
          if nonempty (GetStringFlagValue c "filter")
          then GetStringFlagValue c "filter" else ".*").
Proof.
  intros Hok. apply ok_inv in Hok.
  destruct Hok as (_ & _ & fetcher & n & re & _ & _ & _ & Hfilter & ->).
  apply compileFilter_passes in Hfilter.
  unfold String_, UrlMetricsFetcher_, Interval. simpl.
  destruct Hfilter as [[He ->]|(Hne & r & Hr & ->)].
  - apply nonempty_false in He. rewrite He. reflexivity.
  - apply nonempty_true in Hne. rewrite Hne.
    unfold Compile in Hr.
    destruct (syntax_Parse (GetStringFlagValue c "filter")); inversion Hr.
    reflexivity.
Qed.

End Coverage.

(** ** The further properties on the sample inputs *)

Lemma resolved_source_is_exclusive_witness :
  fst (Sample.parseCommonConfig Sample.fromFile Sample.plain)
  = (Some Sample.confFromFile, None) /\
  (File Sample.confFromFile <> EmptyString ->
   UrlMetricsFetcher_ Sample.confFromFile = None).
Proof.
  assert (H : fst (Sample.parseCommonConfig Sample.fromFile Sample.plain)
              = (Some Sample.confFromFile, None))
    by (vm_compute; reflexivity).
  split; [exact H|].
  exact (proj1
           (resolved_source_is_exclusive string Sample.fetcher
              Sample.GetConfig Sample.NewArtifactoryMetricsFetcher
              Sample.UrlFetcher Sample.Parse Sample.fromFile Sample.plain
              Sample.confFromFile H)).
Defined.

Lemma url_fetcher_resolved_witness :
  fst (Sample.parseCommonConfig Sample.fromUrlWithCredentials Sample.plain)
  = (Some Sample.confFromUrlWithCredentials, None) /\
  GetStringFlagValue Sample.fromUrlWithCredentials "url" <> EmptyString /\
  UrlMetricsFetcher_ Sample.confFromUrlWithCredentials
  = Some (Sample.UrlFetcher
            (GetStringFlagValue Sample.fromUrlWithCredentials "url")
            (GetStringFlagValue Sample.fromUrlWithCredentials "user")
            (GetStringFlagValue Sample.fromUrlWithCredentials "password")).
Proof.
  assert (H : fst (Sample.parseCommonConfig Sample.fromUrlWithCredentials
                     Sample.plain)
              = (Some Sample.confFromUrlWithCredentials, None))
    by (vm_compute; reflexivity).
  assert (Hurl : GetStringFlagValue Sample.fromUrlWithCredentials "url"
                 <> EmptyString) by (vm_compute; discriminate).
  split; [exact H|]. split; [exact Hurl|].
  exact (proj1
           (url_fetcher_resolved string Sample.fetcher
              Sample.GetConfig Sample.NewArtifactoryMetricsFetcher
              Sample.UrlFetcher Sample.Parse Sample.fromUrlWithCredentials
              Sample.plain Sample.confFromUrlWithCredentials H Hurl)).
Defined.

Lemma artifactory_fetcher_resolved_witness :
  fst (Sample.parseCommonConfig Sample.fromArtifactory Sample.plain)
  = (Some Sample.confFromArtifactory, None) /\
  GetBoolFlagValue Sample.fromArtifactory "artifactory" = true /\
  File Sample.confFromArtifactory = EmptyString.
Proof.
  assert (H : fst (Sample.parseCommonConfig Sample.fromArtifactory
                     Sample.plain)
              = (Some Sample.confFromArtifactory, None))
    by (vm_compute; reflexivity).
  assert (Hart : GetBoolFlagValue Sample.fromArtifactory "artifactory" = true)
    by (vm_compute; reflexivity).
  split; [exact H|]. split; [exact Hart|].
  exact (proj1 (proj2
           (artifactory_fetcher_resolved string Sample.fetcher
              Sample.GetConfig Sample.NewArtifactoryMetricsFetcher
              Sample.UrlFetcher Sample.Parse Sample.fromArtifactory
              Sample.plain Sample.confFromArtifactory H Hart))).
Defined.

Lemma artifactory_failure_reported_witness :
  GetBoolFlagValue Sample.fromCurrentServer "artifactory" = true /\
  countInputFlags Sample.fromCurrentServer = 1 /\
  Sample.GetConfigNone (GetStringFlagValue Sample.fromCurrentServer "server")
    false = inr (LibError "no server is configured") /\
  fst (parseCommonConfig string Sample.fetcher Sample.GetConfigNone
         Sample.NewArtifactoryMetricsFetcher Sample.UrlFetcher Sample.Parse
         Sample.fromCurrentServer Sample.plain)
  = (None,
     Some (Errorf "%s; cause: %w"
             [ArgString
                (if String.eqb
                      (GetStringFlagValue Sample.fromCurrentServer "server")
                      EmptyString
                 then "could not load configuration for current Artifactory server"
                 else ("could not load configuration for Artifactory server "
                       ++ GetStringFlagValue Sample.fromCurrentServer "server")%string);
              ArgErr (LibError "no server is configured")])).
Proof.
  assert (Hart : GetBoolFlagValue Sample.fromCurrentServer "artifactory"
                 = true) by (vm_compute; reflexivity).
  assert (Hone : countInputFlags Sample.fromCurrentServer = 1)
    by (vm_compute; reflexivity).
  assert (Herr : Sample.GetConfigNone
                   (GetStringFlagValue Sample.fromCurrentServer "server")
                   false = inr (LibError "no server is configured"))
    by reflexivity.
  split; [exact Hart|]. split; [exact Hone|]. split; [exact Herr|].
  exact (proj1
           (artifactory_failure_reported string Sample.fetcher
              Sample.GetConfigNone Sample.NewArtifactoryMetricsFetcher
              Sample.UrlFetcher Sample.Parse Sample.fromCurrentServer
              Sample.plain Hart Hone) _ Herr).
Defined.

Lemma interval_failure_reported_witness :
  (countInputFlags Sample.everyZeroFilterBroken = 1 \/
   (countInputFlags Sample.everyZeroFilterBroken = 0 /\
    os.Getenv Sample.plain "MOCK_METRICS_DATA" <> EmptyString)) /\
  strconv.ParseInt (GetStringFlagValue Sample.everyZeroFilterBroken "interval")
  = inl 0 /\
  fst (Sample.parseCommonConfig Sample.everyZeroFilterBroken Sample.plain)
  = (None,
     Some (Errorf "interval value must be positive; got: %d" [ArgInt 0])).
Proof.
  assert (Hcount : countInputFlags Sample.everyZeroFilterBroken = 1 \/
                   (countInputFlags Sample.everyZeroFilterBroken = 0 /\
                    os.Getenv Sample.plain "MOCK_METRICS_DATA"
                    <> EmptyString))
    by (left; vm_compute; reflexivity).
  assert (Hopen : GetStringFlagValue Sample.everyZeroFilterBroken "file"
                  <> EmptyString ->
                  os.open_error Sample.plain
                    (GetStringFlagValue Sample.everyZeroFilterBroken "file")
                  = None)
    by (intros _; vm_compute; reflexivity).
  assert (Hart : GetBoolFlagValue Sample.everyZeroFilterBroken "artifactory"
                 = true ->
                 exists d f,
                   Sample.GetConfig
                     (GetStringFlagValue Sample.everyZeroFilterBroken "server")
                     false = inl d /\
                   Sample.NewArtifactoryMetricsFetcher d = inl f)
    by (vm_compute; discriminate).
  assert (Hint : strconv.ParseInt
                   (GetStringFlagValue Sample.everyZeroFilterBroken "interval")
                 = inl 0) by (vm_compute; reflexivity).
  split; [exact Hcount|]. split; [exact Hint|].
  exact (proj2
           (interval_failure_reported string Sample.fetcher
              Sample.GetConfig Sample.NewArtifactoryMetricsFetcher
              Sample.UrlFetcher Sample.Parse Sample.everyZeroFilterBroken
              Sample.plain Hcount Hopen Hart) 0 Hint ltac:(lia)).
Defined.

Lemma errors_carry_a_known_format_witness :
  fst (Sample.parseCommonConfig Sample.fromMissingFile Sample.plain)
  = (None,
     Some (Errorf "could not open file %s: %w"
             [ArgString "missing.log";
              ArgErr (LibError "open missing.log: no such file or directory")])) /\
  exists format args,
    Errorf "could not open file %s: %w"
      [ArgString "missing.log";
       ArgErr (LibError "open missing.log: no such file or directory")]
    = Errorf format args /\ In format errorFormats.
Proof.
  assert (H : fst (Sample.parseCommonConfig Sample.fromMissingFile
                     Sample.plain)
              = (None,
                 Some (Errorf "could not open file %s: %w"
                         [ArgString "missing.log";
                          ArgErr (LibError
                                    "open missing.log: no such file or directory")])))
    by (vm_compute; reflexivity).
  split; [exact H|].
  exact (errors_carry_a_known_format string Sample.fetcher
           Sample.GetConfig Sample.NewArtifactoryMetricsFetcher
           Sample.UrlFetcher Sample.Parse Sample.fromMissingFile
           Sample.plain _ H).
Defined.

Lemma only_the_common_flags_are_read_witness :
  Forall (sameFlag Sample.fromFile
            (setStringFlag Sample.fromFile "color" "always"))
    getCommonFlags /\
  Sample.parseCommonConfig Sample.fromFile Sample.plain
  = Sample.parseCommonConfig
      (setStringFlag Sample.fromFile "color" "always") Sample.plain.
Proof.
  assert (H : Forall (sameFlag Sample.fromFile
                        (setStringFlag Sample.fromFile "color" "always"))
                getCommonFlags)
    by (repeat constructor; vm_compute; reflexivity).
  split; [exact H|].
  exact (only_the_common_flags_are_read string Sample.fetcher
           Sample.GetConfig Sample.NewArtifactoryMetricsFetcher
           Sample.UrlFetcher Sample.Parse Sample.fromFile
           (setStringFlag Sample.fromFile "color" "always") Sample.plain H).
Defined.

Lemma credentials_matter_only_with_url_witness :
  GetStringFlagValue Sample.fromFile "url" = EmptyString /\
  fst (Sample.parseCommonConfig
         (setStringFlag (setStringFlag Sample.fromFile "user" "admin")
            "password" "secret") Sample.plain)
  = fst (Sample.parseCommonConfig Sample.fromFile Sample.plain).
Proof.
  assert (H : GetStringFlagValue Sample.fromFile "url" = EmptyString)
    by (vm_compute; reflexivity).
  split; [exact H|].
  exact (credentials_matter_only_with_url string Sample.fetcher
           Sample.GetConfig Sample.NewArtifactoryMetricsFetcher
           Sample.UrlFetcher Sample.Parse Sample.fromFile Sample.plain
           "admin" "secret" H).
Defined.

Lemma server_matters_only_with_artifactory_witness :
  GetBoolFlagValue Sample.fromFile "artifactory" = false /\
  fst (Sample.parseCommonConfig
         (setStringFlag Sample.fromFile "server" "unknown") Sample.plain)
  = fst (Sample.parseCommonConfig Sample.fromFile Sample.plain).
Proof.
  assert (H : GetBoolFlagValue Sample.fromFile "artifactory" = false)
    by (vm_compute; reflexivity).
  split; [exact H|].
  exact (server_matters_only_with_artifactory string Sample.fetcher
           Sample.GetConfig Sample.NewArtifactoryMetricsFetcher
           Sample.UrlFetcher Sample.Parse Sample.fromFile Sample.plain
           "unknown" H).
Defined.

Lemma environment_matters_only_without_source_witness :
  countInputFlags Sample.fromFile <> 0 /\
  GetBoolFlagValue Sample.fromFile "artifactory" = false /\
  os.open_error Sample.plain (GetStringFlagValue Sample.fromFile "file")
  = os.open_error Sample.mocked (GetStringFlagValue Sample.fromFile "file") /\
  fst (Sample.parseCommonConfig Sample.fromFile Sample.plain)
  = fst (Sample.parseCommonConfig Sample.fromFile Sample.mocked).
Proof.
  assert (Hcount : countInputFlags Sample.fromFile <> 0)
    by (vm_compute; discriminate).
  assert (Hart : GetBoolFlagValue Sample.fromFile "artifactory" = false)
    by (vm_compute; reflexivity).
  assert (Hopen : os.open_error Sample.plain
                    (GetStringFlagValue Sample.fromFile "file")
                  = os.open_error Sample.mocked
                      (GetStringFlagValue Sample.fromFile "file"))
    by reflexivity.
  split; [exact Hcount|]. split; [exact Hart|]. split; [exact Hopen|].
  exact (environment_matters_only_without_source string Sample.fetcher
           Sample.GetConfig Sample.NewArtifactoryMetricsFetcher
           Sample.UrlFetcher Sample.Parse Sample.fromFile Sample.plain
           Sample.mocked Hcount Hart Hopen).
Defined.

Lemma interval_exact_iff_witness :
  fst (Sample.parseCommonConfig Sample.everyPlusSeven Sample.plain)
  = (Some Sample.confEveryPlusSeven, None) /\
  strconv.ParseInt (GetStringFlagValue Sample.everyPlusSeven "interval")
  = inl 7 /\
  (Interval Sample.confEveryPlusSeven = 7 * time.Second <->
   7 <= 9223372036).
Proof.
  assert (H : fst (Sample.parseCommonConfig Sample.everyPlusSeven
                     Sample.plain)
              = (Some Sample.confEveryPlusSeven, None))
    by (vm_compute; reflexivity).
  assert (Hint : strconv.ParseInt
                   (GetStringFlagValue Sample.everyPlusSeven "interval")
                 = inl 7) by (vm_compute; reflexivity).
  split; [exact H|]. split; [exact Hint|].
  exact (proj1
           (interval_exact_iff string Sample.fetcher
              Sample.GetConfig Sample.NewArtifactoryMetricsFetcher
              Sample.UrlFetcher Sample.Parse Sample.everyPlusSeven
              Sample.plain Sample.confEveryPlusSeven 7 H Hint)).
Defined.

Lemma ignore_labels_edge_cases_witness :
  fst (Sample.parseCommonConfig Sample.ignoreTrailingComma Sample.plain)
  = (Some Sample.confIgnoreTrailingComma, None) /\
  GetStringFlagValue Sample.ignoreTrailingComma "aggregate-ignore-labels"
  = ("host" ++ ",")%string /\
  EmptyString ∈ AggregateIgnoreLabels Sample.confIgnoreTrailingComma.
Proof.
  assert (H : fst (Sample.parseCommonConfig Sample.ignoreTrailingComma
                     Sample.plain)
              = (Some Sample.confIgnoreTrailingComma, None))
    by (vm_compute; reflexivity).
  assert (Hflag : GetStringFlagValue Sample.ignoreTrailingComma
                    "aggregate-ignore-labels" = ("host" ++ ",")%string)
    by (vm_compute; reflexivity).
  split; [exact H|]. split; [exact Hflag|].
  exact (proj2 (proj2
           (ignore_labels_edge_cases string Sample.fetcher
              Sample.GetConfig Sample.NewArtifactoryMetricsFetcher
              Sample.UrlFetcher Sample.Parse Sample.ignoreTrailingComma
              Sample.plain Sample.confIgnoreTrailingComma H)) "host" Hflag).
Defined.

Lemma String_of_resolved_witness :
  fst (Sample.parseCommonConfig Sample.fromFile Sample.plain)
  = (Some Sample.confFromFile, None) /\
  String_ Sample.confFromFile
  = Some (GetStringFlagValue Sample.fromFile "file",
          UrlMetricsFetcher_ Sample.confFromFile,
          Interval Sample.confFromFile,
          if nonempty (GetStringFlagValue Sample.fromFile "filter")
          then GetStringFlagValue Sample.fromFile "filter" else ".*").
Proof.
  assert (H : fst (Sample.parseCommonConfig Sample.fromFile Sample.plain)
              = (Some Sample.confFromFile, None))
    by (vm_compute; reflexivity).
  split; [exact H|].
  exact (String_of_resolved string Sample.fetcher
           Sample.GetConfig Sample.NewArtifactoryMetricsFetcher
           Sample.UrlFetcher Sample.Parse Sample.fromFile Sample.plain
           Sample.confFromFile H).
Defined.

Example fetcher_refused_example :
  fst (parseCommonConfig string Sample.fetcher Sample.GetConfig
         Sample.NewArtifactoryMetricsFetcherRefused Sample.UrlFetcher
         Sample.Parse Sample.fromArtifactory Sample.plain)
  = (None,
     Some (Errorf "could not initiate metrics fetcher from Artifactory; cause: %w"
             [ArgErr (LibError "artifactory url is missing")])).
Proof. vm_compute. reflexivity. Qed.
